(** * dataset-foundry: sandboxed unit-test results and the display's quit protocol

    A shallow embedding of
      - [dataset_foundry/types/command_result.py]            (CommandResult),
      - [dataset_foundry/actions/item/run_unit_tests.py]     (the splitter, the
        reconciler and the unit-test action),
      - [dataset_foundry/displays/full/full_display_app.py]  (quit handling),
    followed by the properties of the specification that concern them.

    Modelling conventions.
      - A Python [str] is a list of characters.  Characters are the 8-bit
        [ascii] of the standard library, read as the code points 0..255; on
        that range the regular-expression class [\d] is exactly '0'..'9'.
      - Python [int] is [Z].  [int] is the value that [int(...)] returns for
        a digit string; CPython refuses strings of more than 4300 digits with
        a ValueError, which [int_raises] and the [_outcome] functions carry.
      - [None] in an [Optional] position is [None] of [option].
      - Calls into code that is not part of these files (the sandbox runner,
        the local test runner, the report parser, the item's result store,
        Textual's worker and timer) are parameters or recorded events. *)

From Stdlib Require Import Ascii String ZArith Lia Bool Arith List.
Import ListNotations.

Open Scope string_scope.
Open Scope list_scope.

(* ================================================================== *)
(** * Python strings *)
(* ================================================================== *)

Abbreviation str := (list ascii).

(** A string literal of the source. *)
Definition str_of (s : string) : str := list_ascii_of_string s.

(** The one-character string "\n". *)
Definition NL : str := [ascii_of_nat 10].

Definition len (s : str) : Z := Z.of_nat (length s).

(** [s.startswith(pat)]. *)
Fixpoint startswith (s pat : str) {struct pat} : bool :=
  match pat, s with
  | [], _ => true
  | _ :: _, [] => false
  | p :: pat', c :: s' => Ascii.eqb p c && startswith s' pat'
  end.

(** Index of the first occurrence of [pat] in [s], if any. *)
Fixpoint find_from (s pat : str) : option nat :=
  if startswith s pat then Some 0%nat
  else match s with
       | [] => None
       | _ :: s' => option_map S (find_from s' pat)
       end.

(** [s.find(pat)]: the lowest index where [pat] occurs, or -1. *)
Definition find (s pat : str) : Z :=
  match find_from s pat with
  | Some i => Z.of_nat i
  | None => -1
  end.

(** [s[i:]] and [s[:j]], with Python's reading of a negative index. *)
Definition slice_from (s : str) (i : Z) : str :=
  if (i <? 0)%Z then skipn (Z.to_nat (len s + i)) s else skipn (Z.to_nat i) s.

Definition slice_to (s : str) (j : Z) : str :=
  if (j <? 0)%Z then firstn (Z.to_nat (len s + j)) s else firstn (Z.to_nat j) s.

(** [s.strip(chars)]: leading and trailing characters that belong to [chars]
    are removed. *)
Definition in_chars (chars : str) (c : ascii) : bool :=
  existsb (Ascii.eqb c) chars.

Fixpoint lstrip (s chars : str) : str :=
  match s with
  | [] => []
  | c :: s' => if in_chars chars c then lstrip s' chars else s
  end.

Definition rstrip (s chars : str) : str := rev (lstrip (rev s) chars).

Definition strip (s chars : str) : str := rstrip (lstrip s chars) chars.

(* ================================================================== *)
(** * The end-marker pattern  [::setup:end:(\d+)::] *)
(* ================================================================== *)

Definition SETUP_START : str := str_of "::setup:start::".

Definition END_HEAD : str := str_of "::setup:end:".
Definition END_TAIL : str := str_of "::".

(** [\d] on the code points 0..255. *)
Definition is_digit (c : ascii) : bool :=
  (48 <=? nat_of_ascii c)%nat && (nat_of_ascii c <=? 57)%nat.

(** The longest run of digits at the head of [s], and what follows it. *)
Fixpoint span_digits (s : str) : str * str :=
  match s with
  | [] => ([], [])
  | c :: s' =>
      if is_digit c
      then let (ds, rest) := span_digits s' in (c :: ds, rest)
      else ([], s)
  end.

(** The pattern matched at the head of [s]: the length of the match and group
    1.  [\d+] is greedy and the character after the digits must be ':', which
    is not a digit, so only the longest run of digits can match. *)
Definition match_here (s : str) : option (nat * str) :=
  if startswith s END_HEAD then
    let (ds, rest) := span_digits (skipn (length END_HEAD) s) in
    match ds with
    | [] => None
    | _ :: _ =>
        if startswith rest END_TAIL
        then Some ((length END_HEAD + length ds + length END_TAIL)%nat, ds)
        else None
    end
  else None.

(** A match object: [start()], [end()] and [group(1)]. *)
Record Match : Type := mkMatch {
  m_start : nat;
  m_end : nat;
  m_group1 : str
}.

Definition shift (m : Match) : Match :=
  mkMatch (S (m_start m)) (S (m_end m)) (m_group1 m).

(** [SETUP_END_PATTERN.search(s)]: the leftmost match, or [None]. *)
Fixpoint SETUP_END_PATTERN_search (s : str) : option Match :=
  match match_here s with
  | Some (n, ds) => Some (mkMatch 0 n ds)
  | None =>
      match s with
      | [] => None
      | _ :: s' => option_map shift (SETUP_END_PATTERN_search s')
      end
  end.

(** [int(ds)] for a string of decimal digits. *)
Definition digit_value (c : ascii) : Z := Z.of_nat (nat_of_ascii c - 48).

Definition int (ds : str) : Z :=
  fold_left (fun acc c => (10 * acc + digit_value c)%Z) ds 0%Z.

(* ================================================================== *)
(** * Result records *)
(* ================================================================== *)

Module CommandResult.
Record t : Type := mk {
  command : list str;
  returncode : option Z;
  stdout : str;
  stderr : str
}.

(** [return self.returncode == 0] *)
Definition success (self : t) : bool :=
  match returncode self with
  | Some c => (c =? 0)%Z
  | None => false
  end.
End CommandResult.

(** Modelled from the spec: the record [SandboxResult]
    ([utils/docker/sandbox_runner.py] is not among the files): the overall
    exit code and the raw stdout and stderr of the whole sandbox run.  The
    action assigns to its fields, so they are assignable. *)
Module SandboxResult.
Record t : Type := mk {
  exit_code : Z;
  stdout : str;
  stderr : str
}.
End SandboxResult.

(* ================================================================== *)
(** * The stream splitter and the reconciler *)
(* ================================================================== *)

(** [_split_stream(output)]: the triple the call returns.  In its last
    branch the call raises instead when [int] refuses the digits;
    [split_stream_raises] below says when, and [split_stream_outcome] is the
    call with that exception. *)
Definition _split_stream (output : str) : str * str * option Z :=
  let start_idx := find output SETUP_START in
  if (start_idx =? -1)%Z then
    (strip output NL, [], None)
  else
    let content_after_start := slice_from output (start_idx + len SETUP_START) in
    match SETUP_END_PATTERN_search content_after_start with
    | None =>
        ([], strip content_after_start NL, Some (-1)%Z)
    | Some end_match =>
        let setup_content :=
          strip (slice_to content_after_start (Z.of_nat (m_start end_match))) NL in
        let pytest_content :=
          strip (slice_from content_after_start (Z.of_nat (m_end end_match))) NL in
        (pytest_content, setup_content, Some (int (m_group1 end_match)))
    end.

Definition str_eqb (a b : str) : bool :=
  if list_eq_dec ascii_dec a b then true else false.

Definition opt_Z_eqb (a : option Z) (b : Z) : bool :=
  match a with
  | Some x => (x =? b)%Z
  | None => false
  end.

(** [_parse_sandbox_result(sandbox_result)]: the pair the call returns; an
    exception of either split goes through the call, which
    [parse_sandbox_result_outcome] adds. *)
Definition _parse_sandbox_result (sandbox_result : SandboxResult.t)
  : CommandResult.t * CommandResult.t :=
  let '(pytest_stdout, setup_stdout, setup_stdout_code) :=
    _split_stream (SandboxResult.stdout sandbox_result) in
  let '(pytest_stderr, setup_stderr, setup_stderr_code) :=
    _split_stream (SandboxResult.stderr sandbox_result) in
  let setup_returncode :=
    match setup_stdout_code with
    | Some c => Some c
    | None => setup_stderr_code
    end in
  let pytest_returncode := Some (SandboxResult.exit_code sandbox_result) in
  let '(setup_returncode, pytest_returncode) :=
    if opt_Z_eqb setup_returncode (-1)
       || (str_eqb pytest_stdout [] && str_eqb pytest_stderr [])
    then (Some (SandboxResult.exit_code sandbox_result), None)
    else (setup_returncode, pytest_returncode) in
  (CommandResult.mk [] pytest_returncode pytest_stdout pytest_stderr,
   CommandResult.mk [] setup_returncode setup_stdout setup_stderr).

(* ------------------------------------------------------------------ *)
(** ** Where [int] raises *)

(** CPython converts a decimal string of at most 4300 digits (the default
    [sys.get_int_max_str_digits()]); on a longer one, leading zeros counted,
    [int] raises ValueError. *)
Definition INT_MAX_STR_DIGITS : Z := 4300.

Definition int_raises (ds : str) : bool := (INT_MAX_STR_DIGITS <? len ds)%Z.

(** The string that [_split_stream] gives to [int] in its last line, when it
    gets that far: group 1 of the first end marker after the first start
    marker. *)
Definition int_argument (output : str) : option str :=
  let start_idx := find output SETUP_START in
  if (start_idx =? -1)%Z then None
  else
    let content_after_start := slice_from output (start_idx + len SETUP_START) in
    match SETUP_END_PATTERN_search content_after_start with
    | None => None
    | Some end_match => Some (m_group1 end_match)
    end.

(** [_split_stream(output)] raises the ValueError of [int]; the triple of
    [_split_stream] is what the call returns when this is false. *)
Definition split_stream_raises (output : str) : bool :=
  match int_argument output with
  | Some ds => int_raises ds
  | None => false
  end.

(* ================================================================== *)
(** * The text of a CommandResult *)
(* ================================================================== *)

From Stdlib Require DecimalString.

(** [str(n)] for an integer, in decimal. *)
Definition str_of_int (n : Z) : str :=
  str_of (DecimalString.NilZero.string_of_int (Z.to_int n)).

(** [f"{self.returncode}"] for an [int | None]. *)
Definition format_returncode (returncode : option Z) : str :=
  match returncode with
  | Some n => str_of_int n
  | None => str_of "None"
  end.

(** Truth value of a string: it is not empty. *)
Definition nonempty (s : str) : bool :=
  match s with
  | [] => false
  | _ :: _ => true
  end.

(** [CommandResult.__str__].  [debugging] is
    [logger.isEnabledFor(logging.DEBUG)]. *)
Definition __str__ (debugging : bool) (self : CommandResult.t) : str :=
  let include_error := debugging || negb (CommandResult.success self) in
  let status :=
    if CommandResult.success self then str_of "SUCCESS" else str_of "FAILED" in
  let stderr :=
    if nonempty (CommandResult.stderr self)
    then str_of ", stderr: " ++ CommandResult.stderr self
    else [] in
  let stdout :=
    if debugging && nonempty (CommandResult.stdout self)
    then str_of ", stdout: " ++ CommandResult.stdout self
    else [] in
  let error :=
    if include_error
    then str_of " (code: "
           ++ format_returncode (CommandResult.returncode self)
           ++ stderr ++ stdout ++ str_of ")"
    else [] in
  status ++ error.

(* ================================================================== *)
(** * The unit-test action *)
(* ================================================================== *)

(** Modelled from the spec: the record [UnitTestResult]
    ([types/unit_test_result.py] is not among the files): a CommandResult
    extended with [num_passed] and [num_failed], with the keywords the action
    passes to its constructor. *)
Module UnitTestResult.
Record t : Type := mk {
  command : list str;
  returncode : option Z;
  num_passed : nat;
  num_failed : nat;
  stdout : str;
  stderr : str
}.

(** [result.command = command] *)
Definition set_command (self : t) (c : list str) : t :=
  mk c (returncode self) (num_passed self) (num_failed self)
     (stdout self) (stderr self).
End UnitTestResult.

(** The values a parameter can resolve to.  [PyObject] is a value of any
    other type (a dict, a float, an object, ...), with its truth value. *)
Inductive PyValue : Type :=
| PyNone
| PyBool (b : bool)
| PyInt (n : Z)
| PyStr (s : str)
| PyList (items : list str)
| PyObject (type_name : string) (truth : bool).

(** Truth value of [if v:]. *)
Definition truthy (v : PyValue) : bool :=
  match v with
  | PyNone => false
  | PyBool b => b
  | PyInt n => negb (n =? 0)%Z
  | PyStr s => negb (str_eqb s [])
  | PyList items => match items with [] => false | _ :: _ => true end
  | PyObject _ truth => truth
  end.

(** A result key after resolution: [None] or a string. *)
Definition truthy_key (k : option str) : bool :=
  match k with
  | None => false
  | Some s => negb (str_eqb s [])
  end.

Inductive exn : Type :=
| ValueError (msg : str)
| UnboundLocalError (name : string)
| CollaboratorError (what : string).

(** The message of the ValueError that [int(ds)] raises. *)
Definition int_error (ds : str) : str :=
  str_of "Exceeds the limit (4300 digits) for integer string conversion: value has "
    ++ str_of_int (len ds)
    ++ str_of " digits; use sys.set_int_max_str_digits() to increase the limit".

(** [_split_stream(output)], the call: the triple, or the ValueError of
    [int]. *)
Definition split_stream_outcome (output : str) : exn + (str * str * option Z) :=
  match int_argument output with
  | Some ds =>
      if int_raises ds then inl (ValueError (int_error ds))
      else inr (_split_stream output)
  | None => inr (_split_stream output)
  end.

(** [_parse_sandbox_result(sandbox_result)], the call: stdout is split
    first, then stderr, and an error of either call goes through. *)
Definition parse_sandbox_result_outcome (sandbox_result : SandboxResult.t)
  : exn + (CommandResult.t * CommandResult.t) :=
  match split_stream_outcome (SandboxResult.stdout sandbox_result) with
  | inl e => inl e
  | inr _ =>
      match split_stream_outcome (SandboxResult.stderr sandbox_result) with
      | inl e => inl e
      | inr _ => inr (_parse_sandbox_result sandbox_result)
      end
  end.

(** What the action publishes with [item.push]. *)
Inductive Published : Type :=
| PubUnitTest (r : UnitTestResult.t)
| PubCommand (r : CommandResult.t).

(** What the action does to the world outside: the calls of its collaborators,
    in the order they happen.  Every [Push] is made on behalf of
    [run_unit_tests]. *)
Inductive Event : Type :=
| SandboxRun (sandbox target_file workspace_dir : str) (command : list str)
             (timeout stream_logs : PyValue)
| LocalRun (dir filename : str)
| ParseReport (arg : SandboxResult.t)
| Push (key : str) (value : Published).

(** A local variable of the running function: bound to a value or not yet
    assigned. *)
Inductive Local (A : Type) : Type :=
| Unbound
| Bound (v : A).
Arguments Unbound {A}.
Arguments Bound {A} v.

(** The locals of [run_unit_tests_action] that are assigned on some paths
    only or that hold an object which is assigned to.  [sandbox_result] is
    the object the sandbox runner returned. *)
Record Frame : Type := mkFrame {
  sandbox_result : Local SandboxResult.t;
  setup_result : Local (option CommandResult.t);
  result : Local UnitTestResult.t
}.

Record World : Type := mkWorld {
  frame : Frame;
  trace : list Event
}.

Definition fresh_world : World := mkWorld (mkFrame Unbound Unbound Unbound) [].

(** ** A state and exception monad *)

Inductive Outcome (A : Type) : Type :=
| Returned (a : A)
| Raised (e : exn).
Arguments Returned {A} a.
Arguments Raised {A} e.

Definition M (A : Type) : Type := World -> Outcome A * World.

Definition ret {A : Type} (a : A) : M A := fun w => (Returned a, w).

Definition raise {A : Type} (e : exn) : M A := fun w => (Raised e, w).

Definition bind {A B : Type} (c : M A) (k : A -> M B) : M B :=
  fun w =>
    match c w with
    | (Returned a, w') => k a w'
    | (Raised e, w') => (Raised e, w')
    end.

Declare Scope py_scope.
Delimit Scope py_scope with py.
Notation "x <- c ;; k" := (bind c (fun x => k))
  (at level 61, c at next level, right associativity) : py_scope.
Notation "c ;; k" := (bind c (fun _ => k))
  (at level 61, right associativity) : py_scope.

Definition emit (e : Event) : M unit :=
  fun w => (Returned tt, mkWorld (frame w) (trace w ++ [e])).

Definition update_frame (f : Frame -> Frame) : M unit :=
  fun w => (Returned tt, mkWorld (f (frame w)) (trace w)).

(** Reading a local: an unassigned one raises [UnboundLocalError]. *)
Definition read {A : Type} (slot : Frame -> Local A) (name : string) : M A :=
  fun w =>
    match slot (frame w) with
    | Bound v => (Returned v, w)
    | Unbound => (Raised (UnboundLocalError name), w)
    end.

(** The outcome of a collaborator's call. *)
Definition lift {A : Type} (r : exn + A) : M A :=
  match r with
  | inr a => ret a
  | inl e => raise e
  end.

Definition assign_sandbox_result (v : SandboxResult.t) : M unit :=
  update_frame (fun f => mkFrame (Bound v) (setup_result f) (result f)).

Definition assign_setup_result (v : option CommandResult.t) : M unit :=
  update_frame (fun f => mkFrame (sandbox_result f) (Bound v) (result f)).

Definition assign_result (v : UnitTestResult.t) : M unit :=
  update_frame (fun f => mkFrame (sandbox_result f) (setup_result f) (Bound v)).

(** [sandbox_result.stdout = v] and [sandbox_result.stderr = v]: the object
    bound to [sandbox_result] is changed in place. *)
Definition set_sandbox_stdout (v : str) : M unit :=
  (sb <- read sandbox_result "sandbox_result" ;;
   assign_sandbox_result
     (SandboxResult.mk (SandboxResult.exit_code sb) v (SandboxResult.stderr sb)))%py.

Definition set_sandbox_stderr (v : str) : M unit :=
  (sb <- read sandbox_result "sandbox_result" ;;
   assign_sandbox_result
     (SandboxResult.mk (SandboxResult.exit_code sb) (SandboxResult.stdout sb) v))%py.

(** [item.push({ key: value }, run_unit_tests)] *)
Definition push (key : str) (value : Published) : M unit := emit (Push key value).

Section Action.

(** The collaborators: [SandboxRunner(sandbox).run(...)], the report parser
    and the local test runner.  Each returns a value or raises. *)
Variable SandboxRunner_run :
  str -> str -> str -> list str -> PyValue -> PyValue -> exn + SandboxResult.t.
Variable parse_python_unit_test_results : SandboxResult.t -> exn + UnitTestResult.t.
Variable run_python_unit_tests : str -> str -> exn + UnitTestResult.t.

Definition sandbox_error : str := str_of "Sandbox must be a string name of a sandbox".

(** The body of [run_unit_tests_action], from the resolved parameters on.
    [resolved_property] is a string, [resolved_setup_property] a string or
    [None]; the other parameters are whatever they resolved to.  [item.push]
    is taken to return: with string keys the dict display cannot fail, and
    the item's result store is not among the files. *)
Definition run_unit_tests_action
    (resolved_filename resolved_dir resolved_property : str)
    (resolved_setup_property : option str)
    (resolved_sandbox resolved_stream_logs resolved_timeout : PyValue)
  : M unit :=
  ((if truthy resolved_sandbox then
      sandbox_manager <-
        match resolved_sandbox with
        | PyStr name => ret name
        | _ => raise (ValueError sandbox_error)
        end ;;
      let command :=
        [str_of "python -m pytest -v '" ++ resolved_filename ++ str_of "'"] in
      emit (SandboxRun sandbox_manager resolved_filename resolved_dir command
              resolved_timeout resolved_stream_logs) ;;
      returned <- lift (SandboxRunner_run sandbox_manager resolved_filename
                          resolved_dir command resolved_timeout
                          resolved_stream_logs) ;;
      assign_sandbox_result returned ;;
      parsed <- read sandbox_result "sandbox_result" ;;
      results <- lift (parse_sandbox_result_outcome parsed) ;;
      let '(pytest_result, setup) := results in
      assign_setup_result (Some setup) ;;
      match CommandResult.returncode pytest_result with
      | Some _ =>
          set_sandbox_stdout (CommandResult.stdout pytest_result) ;;
          set_sandbox_stderr (CommandResult.stderr pytest_result) ;;
          arg <- read sandbox_result "sandbox_result" ;;
          emit (ParseReport arg) ;;
          r <- lift (parse_python_unit_test_results arg) ;;
          assign_result (UnitTestResult.set_command r command)
      | None =>
          assign_result
            (UnitTestResult.mk command None 0 0
               (CommandResult.stdout pytest_result)
               (CommandResult.stderr pytest_result))
      end
    else
      emit (LocalRun resolved_dir resolved_filename) ;;
      r <- lift (run_python_unit_tests resolved_dir resolved_filename) ;;
      assign_result r) ;;
   r <- read result "result" ;;
   push resolved_property (PubUnitTest r) ;;
   s <- read setup_result "setup_result" ;;
   match s with
   | Some setup =>
       if truthy_key resolved_setup_property then
         match resolved_setup_property with
         | Some key => push key (PubCommand setup)
         | None => ret tt
         end
       else ret tt
   | None => ret tt
   end)%py.

End Action.

(** The publication of the setup result, made when its key is set. *)
Definition setup_push (setup_property : option str) (setup : CommandResult.t)
  : list Event :=
  match setup_property with
  | Some key => if str_eqb key [] then [] else [Push key (PubCommand setup)]
  | None => []
  end.

(** The setup results published under [key], in order. *)
Definition setup_published (key : str) (t : list Event) : list CommandResult.t :=
  flat_map (fun e =>
              match e with
              | Push k (PubCommand r) => if str_eqb k key then [r] else []
              | _ => []
              end) t.

(** The events of a trace that run tests. *)
Definition is_execution (e : Event) : bool :=
  match e with
  | SandboxRun _ _ _ _ _ _ => true
  | LocalRun _ _ => true
  | _ => false
  end.

(* ================================================================== *)
(** * The display application: quitting while the pipeline runs *)
(* ================================================================== *)

Module FullDisplayApp.

(** Textual's worker, as far as the application looks at it: its state and
    the calls of [cancel()] it has received. *)
Inductive WorkerState : Type := PENDING | RUNNING | CANCELLED | ERROR | SUCCESS.

Record Worker : Type := mkWorker {
  state : WorkerState;
  cancel_calls : nat
}.

Definition is_finished (w : Worker) : bool :=
  match state w with
  | CANCELLED | ERROR | SUCCESS => true
  | PENDING | RUNNING => false
  end.

Definition is_running (w : Worker) : bool :=
  match state w with
  | RUNNING => true
  | _ => false
  end.

Definition cancel (w : Worker) : Worker :=
  mkWorker (state w) (S (cancel_calls w)).

(** The application object.  [console] holds the lines that [action_quit]
    gives to [console_service.append] (captured prints are left out);
    [call_later_calls] counts the callbacks given to [call_later],
    [callbacks_run] those that have run; [exit_calls] counts the calls of
    [exit()].  [_pipeline_worker] is assigned once, in [on_mount], so the
    worker that [_cancel_pipeline] captures is the one the field holds. *)
Record App : Type := mkApp {
  _params_no_exit : bool;
  _pipeline_worker : option Worker;
  _is_quitting : bool;
  console : list str;
  active_tab : str;
  call_later_calls : nat;
  callbacks_run : nat;
  exit_calls : nat
}.

Definition CLEANUP_NOTICE : str :=
  NL ++ str_of "Shutting down Docker containers... Please wait for cleanup to complete.".

Definition set_is_quitting (b : bool) (self : App) : App :=
  mkApp (_params_no_exit self) (_pipeline_worker self) b (console self)
    (active_tab self) (call_later_calls self) (callbacks_run self)
    (exit_calls self).

Definition console_service_append (line : str) (self : App) : App :=
  mkApp (_params_no_exit self) (_pipeline_worker self) (_is_quitting self)
    (console self ++ [line]) (active_tab self) (call_later_calls self)
    (callbacks_run self) (exit_calls self).

Definition _select_tab (tab_id : str) (self : App) : App :=
  mkApp (_params_no_exit self) (_pipeline_worker self) (_is_quitting self)
    (console self) tab_id (call_later_calls self) (callbacks_run self)
    (exit_calls self).

Definition exit (self : App) : App :=
  mkApp (_params_no_exit self) (_pipeline_worker self) (_is_quitting self)
    (console self) (active_tab self) (call_later_calls self)
    (callbacks_run self) (S (exit_calls self)).

Definition set_worker (w : option Worker) (self : App) : App :=
  mkApp (_params_no_exit self) w (_is_quitting self) (console self)
    (active_tab self) (call_later_calls self) (callbacks_run self)
    (exit_calls self).

(** [_cancel_pipeline]: hands [_cancel_after_delay] to [call_later]. *)
Definition _cancel_pipeline (self : App) : App :=
  mkApp (_params_no_exit self) (_pipeline_worker self) (_is_quitting self)
    (console self) (active_tab self) (S (call_later_calls self))
    (callbacks_run self) (exit_calls self).

(** One scheduled [_cancel_after_delay] runs, its sleep over: the worker is
    cancelled if it is still running.  Nothing happens when no callback is
    waiting. *)
Definition _cancel_after_delay (self : App) : App :=
  if (callbacks_run self <? call_later_calls self)%nat then
    let self' :=
      mkApp (_params_no_exit self) (_pipeline_worker self) (_is_quitting self)
        (console self) (active_tab self) (call_later_calls self)
        (S (callbacks_run self)) (exit_calls self) in
    match _pipeline_worker self with
    | Some worker =>
        if negb (is_finished worker) && is_running worker
        then set_worker (Some (cancel worker)) self'
        else self'
    | None => self'
    end
  else self.

(** [action_quit].  It has no [await] in it: the event loop runs it from
    beginning to end before it handles anything else. *)
Definition action_quit (self : App) : App :=
  if _is_quitting self then self
  else
    let self := set_is_quitting true self in
    match _pipeline_worker self with
    | Some worker =>
        if negb (is_finished worker) then
          _cancel_pipeline
            (_select_tab (str_of "tab_console")
               (console_service_append CLEANUP_NOTICE self))
        else exit self
    | None => exit self
    end.

(** The end of [_run_pipeline]: the pipeline has returned or has unwound
    after a cancellation; the worker reaches the final state [final] and the
    [finally] block runs. *)
Definition _run_pipeline_ends (final : WorkerState) (self : App) : App :=
  let self :=
    match _pipeline_worker self with
    | Some worker => set_worker (Some (mkWorker final (cancel_calls worker))) self
    | None => self
    end in
  if _is_quitting self || negb (_params_no_exit self) then exit self else self.

(** What can happen to the application after it is mounted. *)
Inductive Input : Type :=
| QuitRequest
| DelayElapsed
| WorkerStarts
| PipelineEnds (final : WorkerState)
| TabSelected (tab_id : str).

Definition handle (self : App) (i : Input) : App :=
  match i with
  | QuitRequest => action_quit self
  | DelayElapsed => _cancel_after_delay self
  | WorkerStarts =>
      match _pipeline_worker self with
      | Some worker =>
          match state worker with
          | PENDING => set_worker (Some (mkWorker RUNNING (cancel_calls worker))) self
          | _ => self
          end
      | None => self
      end
  | PipelineEnds final =>
      match _pipeline_worker self with
      | Some worker => if is_finished worker then self else _run_pipeline_ends final self
      | None => self
      end
  | TabSelected tab_id => _select_tab tab_id self
  end.

Definition run (self : App) (inputs : list Input) : App :=
  fold_left handle inputs self.

(** The cleanup notices on the console. *)
Definition cleanup_notices (self : App) : nat :=
  count_occ (list_eq_dec ascii_dec) (console self) CLEANUP_NOTICE.

(** The calls of [cancel()] the worker has received. *)
Definition worker_cancel_calls (self : App) : nat :=
  match _pipeline_worker self with
  | Some worker => cancel_calls worker
  | None => 0
  end.

(** The pipeline task is running: the worker exists and has not finished. *)
Definition pipeline_running (self : App) : Prop :=
  exists worker, _pipeline_worker self = Some worker /\ is_finished worker = false.

(** As long as nobody has asked to quit, the console is empty and no
    cancellation has been scheduled or delivered. *)
Definition untouched (self : App) : Prop :=
  _is_quitting self = false ->
  console self = [] /\ call_later_calls self = 0 /\ callbacks_run self = 0
  /\ worker_cancel_calls self = 0.

End FullDisplayApp.

(* ================================================================== *)
(** * The display application: tabs and panes *)
(* ================================================================== *)

Module TabView.

(** What the tab functions of [FullDisplayApp] read and write: the active tab
    of [#top_tabs] and the [display] flag of the pipeline tab and of the two
    panes. *)
Record Screen : Type := mkScreen {
  top_tabs_active : str;
  tab_pipeline_display : bool;
  pane_pipeline_display : bool;
  pane_console_display : bool
}.

Definition tab_pipeline : str := str_of "tab_pipeline".
Definition tab_console : str := str_of "tab_console".

Definition _switch_tab (tab_id : str) (self : Screen) : Screen :=
  if str_eqb tab_id tab_pipeline then
    mkScreen (top_tabs_active self) true true false
  else if str_eqb tab_id tab_console then
    mkScreen (top_tabs_active self) (tab_pipeline_display self) false true
  else self.

Definition _select_tab (tab_id : str) (self : Screen) : Screen :=
  _switch_tab tab_id
    (mkScreen tab_id (tab_pipeline_display self) (pane_pipeline_display self)
       (pane_console_display self)).

(** The tab part of [on_mount]; [pipelines] is
    [len(pipeline_service.pipelines)]. *)
Definition on_mount (pipelines : nat) (self : Screen) : Screen :=
  if (0 <? pipelines)%nat then _select_tab tab_pipeline self
  else
    let self := _select_tab tab_console self in
    mkScreen (top_tabs_active self) false (pane_pipeline_display self)
      (pane_console_display self).

Definition _on_pipeline_started (self : Screen) : Screen :=
  _select_tab tab_pipeline self.

(** [on_tabs_tab_activated]: [tab_id] and [classes] are [event.tab.id] and
    [event.tab.classes]. *)
Definition on_tabs_tab_activated (tab_id : str) (classes : list str)
    (self : Screen) : Screen :=
  if existsb (str_eqb (str_of "-active")) classes
  then _switch_tab tab_id self
  else self.

(** What reaches the tab functions once the application is mounted: the
    pipeline-started notification, an activated tab, and the switch to the
    console that [action_quit] makes. *)
Inductive ViewInput : Type :=
| PipelineStarted
| TabActivated (tab_id : str) (classes : list str)
| QuitNotice.

Definition view (self : Screen) (i : ViewInput) : Screen :=
  match i with
  | PipelineStarted => _on_pipeline_started self
  | TabActivated tab_id classes => on_tabs_tab_activated tab_id classes self
  | QuitNotice => _select_tab tab_console self
  end.

Definition views (self : Screen) (inputs : list ViewInput) : Screen :=
  fold_left view inputs self.

(** An input that does not bring the pipeline tab up: no pipeline has
    started and the pipeline tab is not the one activated. *)
Definition quiet (i : ViewInput) : Prop :=
  match i with
  | PipelineStarted => False
  | TabActivated tab_id _ => tab_id <> tab_pipeline
  | QuitNotice => True
  end.

(** Exactly one of the two panes is displayed. *)
Definition one_pane (self : Screen) : Prop :=
  pane_pipeline_display self = negb (pane_console_display self).

End TabView.
(* ================================================================== *)
(** * What an occurrence is *)
(* ================================================================== *)

(** [pat] occurs in [s] at index [i]. *)
Definition occurs_at (pat s : str) (i : nat) : Prop :=
  exists pre post, s = pre ++ pat ++ post /\ length pre = i.

(** [pat] occurs somewhere in [s]. *)
Definition occurs (pat s : str) : Prop := exists i, occurs_at pat s i.

(** A non-empty string of decimal digits: what [\d+] matches. *)
Definition digits (ds : str) : Prop :=
  ds <> [] /\ forallb is_digit ds = true.

(** The end marker that carries the digits [ds]. *)
Definition end_marker (ds : str) : str := END_HEAD ++ ds ++ END_TAIL.

(** Some end marker occurs in [s] at index [i]. *)
Definition end_marker_at (s : str) (i : nat) : Prop :=
  exists ds, digits ds /\ occurs_at (end_marker ds) s i.

(** Only newlines. *)
Definition newlines (s : str) : Prop := Forall (fun c => c = ascii_of_nat 10) s.

(** [t] neither begins nor ends with a newline. *)
Definition trimmed (t : str) : Prop :=
  (forall u, t <> ascii_of_nat 10 :: u) /\ (forall u, t <> u ++ [ascii_of_nat 10]).

(** [t] is [s] with its boundary newlines trimmed: a run of newlines is taken
    off each end, as long as there are any. *)
Definition trim_of (s t : str) : Prop :=
  exists a b, newlines a /\ newlines b /\ s = a ++ t ++ b /\ trimmed t.

(** The head of [s], if any, is not a digit. *)
Definition no_digit_head (s : str) : Prop :=
  match s with
  | [] => True
  | c :: _ => is_digit c = false
  end.

(* ================================================================== *)
(** * The three cases of [_split_stream] *)
(* ================================================================== *)

(** The first occurrence of the start marker in [output] is right after
    [pre]. *)
Definition first_start (output pre : str) : Prop :=
  forall j, occurs_at SETUP_START output j -> length pre <= j.

(** The first end marker of [rest] is right after [mid]. *)
Definition first_end (rest mid : str) : Prop :=
  forall j, end_marker_at rest j -> length mid <= j.

Inductive split_case (output : str) : str * str * option Z -> Prop :=
| split_no_start :
    ~ occurs SETUP_START output ->
    split_case output (strip output NL, [], None)
| split_no_end (pre rest : str) :
    output = pre ++ SETUP_START ++ rest ->
    first_start output pre ->
    (forall j, ~ end_marker_at rest j) ->
    split_case output ([], strip rest NL, Some (-1)%Z)
| split_both (pre mid ds post : str) :
    output = pre ++ SETUP_START ++ mid ++ end_marker ds ++ post ->
    first_start output pre ->
    digits ds ->
    first_end (mid ++ end_marker ds ++ post) mid ->
    split_case output (strip post NL, strip mid NL, Some (int ds)).

(** What [_split_stream] does once the first start marker is located: the
    text in front of it plays no part. *)
Definition split_after_start (content_after_start : str) : str * str * option Z :=
  match SETUP_END_PATTERN_search content_after_start with
  | None => ([], strip content_after_start NL, Some (-1)%Z)
  | Some end_match =>
      (strip (slice_from content_after_start (Z.of_nat (m_end end_match))) NL,
       strip (slice_to content_after_start (Z.of_nat (m_start end_match))) NL,
       Some (int (m_group1 end_match)))
  end.


(** What a trace publishes, in order. *)
Definition published (t : list Event) : list (str * Published) :=
  flat_map (fun e =>
              match e with
              | Push key value => [(key, value)]
              | _ => []
              end) t.

(** The test runs of a trace, in order. *)
Definition executions (t : list Event) : list Event := filter is_execution t.

(** The calls of the report parser in a trace. *)
Definition parser_calls (t : list Event) : list SandboxResult.t :=
  flat_map (fun e =>
              match e with
              | ParseReport arg => [arg]
              | _ => []
              end) t.

(** The command the action builds for the sandbox. *)
Definition pytest_command (filename : str) : list str :=
  [str_of "python -m pytest -v '" ++ filename ++ str_of "'"].

(** A worker state in which the worker has finished. *)
Definition finished_state (s : FullDisplayApp.WorkerState) : bool :=
  FullDisplayApp.is_finished (FullDisplayApp.mkWorker s 0).

(** No quit request among the inputs. *)
Definition no_quit_request (inputs : list FullDisplayApp.Input) : Prop :=
  Forall (fun i => i <> FullDisplayApp.QuitRequest) inputs.

(** The pipeline does not end among the inputs. *)
Definition no_pipeline_end (inputs : list FullDisplayApp.Input) : Prop :=
  Forall (fun i => forall final, i <> FullDisplayApp.PipelineEnds final) inputs.

(** The object that the action hands to the report parser: the sandbox
    result with the test contents assigned to its stdout and stderr. *)
Definition parser_argument (sb : SandboxResult.t) : SandboxResult.t :=
  SandboxResult.mk (SandboxResult.exit_code sb)
    (CommandResult.stdout (fst (_parse_sandbox_result sb)))
    (CommandResult.stderr (fst (_parse_sandbox_result sb))).

(** The report parser returns in this invocation: it is called only when the
    test returncode is present, and then on [parser_argument sb]. *)
Definition parser_returns
    (parse_python_unit_test_results : SandboxResult.t -> exn + UnitTestResult.t)
    (sb : SandboxResult.t) : Prop :=
  CommandResult.returncode (fst (_parse_sandbox_result sb)) <> None ->
  exists r, parse_python_unit_test_results (parser_argument sb) = inr r.

(** Both streams of [sb] are split without a ValueError. *)
Definition splits_return (sb : SandboxResult.t) : Prop :=
  split_stream_raises (SandboxResult.stdout sb) = false
  /\ split_stream_raises (SandboxResult.stderr sb) = false.
(* ------------------------------------------------------------------ *)
(** ** The scenarios of the specification *)

Definition scenario_A : SandboxResult.t :=
  SandboxResult.mk 0
    (SETUP_START ++ NL ++ str_of "building" ++ NL
       ++ str_of "::setup:end:0::" ++ NL ++ str_of "1 passed")
    [].

Definition scenario_B : SandboxResult.t :=
  SandboxResult.mk 137
    (SETUP_START ++ NL ++ str_of "installing deps...")
    [].

Definition scenario_C : SandboxResult.t :=
  SandboxResult.mk 1 (str_of "3 passed, 1 failed") [].

(** Collaborators to run the action on the scenarios: a sandbox runner that
    returns a given result, a report parser that counts nothing, and a local
    runner with one passing test. *)
Definition runner_returning (sb : SandboxResult.t)
  : str -> str -> str -> list str -> PyValue -> PyValue -> exn + SandboxResult.t :=
  fun _ _ _ _ _ _ => inr sb.

Definition parser_without_counts (arg : SandboxResult.t) : exn + UnitTestResult.t :=
  inr (UnitTestResult.mk [] (Some (SandboxResult.exit_code arg)) 0 0
         (SandboxResult.stdout arg) (SandboxResult.stderr arg)).

Definition one_passed : UnitTestResult.t :=
  UnitTestResult.mk [str_of "pytest"] (Some 0%Z) 1 0 (str_of "1 passed") [].

Definition local_runner_one_passed (dir filename : str) : exn + UnitTestResult.t :=
  inr one_passed.

(** The application right after [on_mount]: the worker has been created and
    nothing else has happened. *)
Definition mounted (no_exit : bool) (tab : str) : FullDisplayApp.App :=
  FullDisplayApp.mkApp no_exit
    (Some (FullDisplayApp.mkWorker FullDisplayApp.PENDING 0))
    false [] tab 0 0 0.

(** Collaborators that fail. *)
Definition runner_failing
  : str -> str -> str -> list str -> PyValue -> PyValue -> exn + SandboxResult.t :=
  fun _ _ _ _ _ _ => inl (CollaboratorError "sandbox runner").

Definition parser_failing (arg : SandboxResult.t) : exn + UnitTestResult.t :=
  inl (CollaboratorError "report parser").

(** A screen as [compose] leaves it: the first tab active, everything
    displayed. *)
Definition composed : TabView.Screen :=
  TabView.mkScreen TabView.tab_pipeline true true true.

(** Scenario D: the setup ended with a marker of 4301 digits. *)
Definition long_code : str := repeat "7"%char 4301.

Definition scenario_D : SandboxResult.t :=
  SandboxResult.mk 0
    (SETUP_START ++ NL ++ end_marker long_code ++ NL ++ str_of "1 passed") [].

(* ================================================================== *)
(** * Lemmas on strings *)
(* ================================================================== *)

Section StringLemmas.

Lemma startswith_app (pat post : str) : startswith (pat ++ post) pat = true.
Proof.
  induction pat as [|p pat IH]; simpl; [reflexivity|].
  now rewrite Ascii.eqb_refl, IH.
Qed.

Lemma startswith_inv (s pat : str) :
  startswith s pat = true -> exists post, s = pat ++ post.
Proof.
  revert s. induction pat as [|p pat IH]; intros s H.
  - now exists s.
  - destruct s as [|c s]; simpl in H; [discriminate|].
    apply andb_true_iff in H. destruct H as [Hc Hs].
    apply Ascii.eqb_eq in Hc. subst c.
    destruct (IH _ Hs) as [post ->]. now exists post.
Qed.

Lemma startswith_iff (s pat : str) :
  startswith s pat = true <-> occurs_at pat s 0.
Proof.
  split.
  - intros H. destruct (startswith_inv _ _ H) as [post ->].
    now exists [], post.
  - intros (pre & post & -> & Hl).
    destruct pre; [|discriminate]. simpl. apply startswith_app.
Qed.

Lemma occurs_at_cons (pat : str) (c : ascii) (s : str) (i : nat) :
  occurs_at pat (c :: s) (S i) <-> occurs_at pat s i.
Proof.
  split.
  - intros (pre & post & E & Hl).
    destruct pre as [|x pre]; [discriminate|].
    simpl in E, Hl. injection E as -> ->. injection Hl as Hl.
    now exists pre, post.
  - intros (pre & post & -> & Hl).
    exists (c :: pre), post. simpl. now rewrite Hl.
Qed.

Lemma occurs_at_nil (pat : str) (i : nat) :
  occurs_at pat [] (S i) -> False.
Proof.
  intros (pre & post & E & Hl). destruct pre; discriminate.
Qed.

Lemma occurs_at_app (pat pre post : str) :
  occurs_at pat (pre ++ pat ++ post) (length pre).
Proof. now exists pre, post. Qed.

(** [find_from] returns the first occurrence. *)
Lemma find_from_Some (pat s : str) (i : nat) :
  find_from s pat = Some i ->
  occurs_at pat s i /\ forall j, occurs_at pat s j -> i <= j.
Proof.
  revert i. induction s as [|c s IH]; intros i; simpl.
  - destruct (startswith [] pat) eqn:E; [|discriminate].
    intros [= <-]. split; [now apply startswith_iff | lia].
  - destruct (startswith (c :: s) pat) eqn:E.
    + intros [= <-]. split; [now apply startswith_iff | lia].
    + destruct (find_from s pat) as [k|] eqn:F; [|discriminate].
      intros [= <-]. destruct (IH k eq_refl) as [Hk Hmin]. split.
      * now apply occurs_at_cons.
      * intros [|j] Hj.
        -- apply startswith_iff in Hj. congruence.
        -- apply occurs_at_cons in Hj. apply Hmin in Hj. lia.
Qed.

Lemma find_from_None (pat s : str) :
  find_from s pat = None -> forall j, ~ occurs_at pat s j.
Proof.
  induction s as [|c s IH]; simpl.
  - destruct (startswith [] pat) eqn:E; [discriminate|].
    intros _ [|j] Hj.
    + apply startswith_iff in Hj. congruence.
    + now apply occurs_at_nil in Hj.
  - destruct (startswith (c :: s) pat) eqn:E; [discriminate|].
    destruct (find_from s pat) as [k|] eqn:F; [discriminate|].
    intros _ [|j] Hj.
    + apply startswith_iff in Hj. congruence.
    + apply occurs_at_cons in Hj. now apply (IH eq_refl j).
Qed.

(** Conversely, the first occurrence is what [find_from] returns. *)
Lemma find_from_first (pat s : str) (i : nat) :
  occurs_at pat s i ->
  (forall j, occurs_at pat s j -> i <= j) ->
  find_from s pat = Some i.
Proof.
  intros Hi Hmin. destruct (find_from s pat) as [k|] eqn:F.
  - destruct (find_from_Some _ _ _ F) as [Hk Hk'].
    f_equal. apply Nat.le_antisymm; auto.
  - exfalso. exact (find_from_None _ _ F _ Hi).
Qed.

Lemma slice_from_app (pre s : str) :
  slice_from (pre ++ s) (len pre) = s.
Proof.
  unfold slice_from, len.
  destruct (Z.ltb_spec (Z.of_nat (length pre)) 0); [lia|].
  rewrite Nat2Z.id, skipn_app, skipn_all, Nat.sub_diag. reflexivity.
Qed.

Lemma slice_to_app (pre s : str) :
  slice_to (pre ++ s) (len pre) = pre.
Proof.
  unfold slice_to, len.
  destruct (Z.ltb_spec (Z.of_nat (length pre)) 0); [lia|].
  rewrite Nat2Z.id, firstn_app, firstn_all, Nat.sub_diag. simpl.
  apply app_nil_r.
Qed.

End StringLemmas.

Section PatternLemmas.

Lemma span_digits_spec (s ds rest : str) :
  span_digits s = (ds, rest) ->
  s = ds ++ rest /\ forallb is_digit ds = true /\ no_digit_head rest.
Proof.
  revert ds rest. induction s as [|c s IH]; intros ds rest; simpl.
  - intros [= <- <-]. repeat split.
  - destruct (is_digit c) eqn:D.
    + destruct (span_digits s) as [ds' rest'].
      intros [= <- <-]. destruct (IH _ _ eq_refl) as (-> & Hd & Hh).
      simpl. rewrite D, Hd. repeat split. exact Hh.
    + intros [= <- <-]. repeat split. exact D.
Qed.

Lemma span_digits_app (ds rest : str) :
  forallb is_digit ds = true -> no_digit_head rest ->
  span_digits (ds ++ rest) = (ds, rest).
Proof.
  intros Hd Hh. induction ds as [|c ds IH]; simpl in *.
  - destruct rest as [|r rest]; [reflexivity|]. simpl in Hh |- *. now rewrite Hh.
  - apply andb_true_iff in Hd. destruct Hd as [Hc Hd].
    now rewrite Hc, (IH Hd).
Qed.

Lemma skipn_head (a b : str) : skipn (length a) (a ++ b) = b.
Proof.
  rewrite skipn_app, skipn_all, Nat.sub_diag. reflexivity.
Qed.

Lemma end_marker_length (ds : str) :
  length (end_marker ds) = (length END_HEAD + length ds + length END_TAIL)%nat.
Proof. unfold end_marker. rewrite !length_app. lia. Qed.

Lemma match_here_Some (s : str) (n : nat) (ds : str) :
  match_here s = Some (n, ds) ->
  digits ds /\ n = length (end_marker ds) /\ exists post, s = end_marker ds ++ post.
Proof.
  unfold match_here.
  destruct (startswith s END_HEAD) eqn:H; [|discriminate].
  destruct (startswith_inv _ _ H) as [t ->].
  rewrite skipn_head.
  destruct (span_digits t) as [d rest] eqn:Sp.
  destruct (span_digits_spec _ _ _ Sp) as (-> & Hd & _).
  destruct d as [|c d]; [discriminate|].
  destruct (startswith rest END_TAIL) eqn:T; [|discriminate].
  destruct (startswith_inv _ _ T) as [post ->].
  intros [= <- <-]. split; [|split].
  - split; [discriminate | exact Hd].
  - now rewrite end_marker_length.
  - exists post. unfold end_marker. now rewrite <- !app_assoc.
Qed.

Lemma match_here_marker (ds post : str) :
  digits ds ->
  match_here (end_marker ds ++ post) = Some (length (end_marker ds), ds).
Proof.
  intros [Hne Hd]. unfold match_here, end_marker.
  rewrite <- !app_assoc. rewrite startswith_app, skipn_head.
  rewrite span_digits_app; [| exact Hd | reflexivity].
  destruct ds as [|c ds]; [congruence|].
  rewrite startswith_app, !length_app.
  do 2 f_equal; lia.
Qed.

(** At a given place, at most one end marker fits. *)
Lemma end_marker_unique (ds ds' post post' : str) :
  digits ds -> digits ds' ->
  end_marker ds ++ post = end_marker ds' ++ post' ->
  ds = ds' /\ post = post'.
Proof.
  intros Hd Hd' E.
  pose proof (match_here_marker ds post Hd) as M.
  rewrite E, (match_here_marker ds' post' Hd') in M.
  injection M as _ ->. split; [reflexivity|].
  now apply app_inv_head in E.
Qed.

Lemma end_marker_at_cons (c : ascii) (s : str) (j : nat) :
  end_marker_at (c :: s) (S j) <-> end_marker_at s j.
Proof.
  unfold end_marker_at. split; intros (ds & Hd & H); exists ds; split; auto;
    now apply occurs_at_cons in H + apply occurs_at_cons.
Qed.

Lemma match_here_None (s : str) :
  match_here s = None -> ~ end_marker_at s 0.
Proof.
  intros H (ds & Hd & pre & post & -> & Hl).
  destruct pre; [|discriminate]. rewrite app_nil_l in H.
  now rewrite match_here_marker in H.
Qed.

(** [search] returns the leftmost end marker. *)
Lemma search_Some (s : str) (m : Match) :
  SETUP_END_PATTERN_search s = Some m ->
  digits (m_group1 m) /\
  (exists pre post,
      s = pre ++ end_marker (m_group1 m) ++ post /\
      m_start m = length pre /\
      m_end m = (length pre + length (end_marker (m_group1 m)))%nat) /\
  forall j, end_marker_at s j -> m_start m <= j.
Proof.
  revert m. induction s as [|c s IH]; intros m; cbn [SETUP_END_PATTERN_search].
  - destruct (match_here []) as [[n ds]|] eqn:M; [|discriminate].
    intros [= <-]. simpl.
    destruct (match_here_Some _ _ _ M) as (Hd & -> & post & E).
    split; [exact Hd|]. split; [|lia].
    exists [], post. now rewrite E.
  - destruct (match_here (c :: s)) as [[n ds]|] eqn:M.
    + intros [= <-]. simpl.
      destruct (match_here_Some _ _ _ M) as (Hd & -> & post & E).
      split; [exact Hd|]. split; [|lia].
      exists [], post. now rewrite E.
    + destruct (SETUP_END_PATTERN_search s) as [m'|] eqn:F; [|discriminate].
      intros [= <-]. destruct (IH _ eq_refl) as (Hd & (pre & post & E & Hs & He) & Hmin).
      simpl. split; [exact Hd|]. split.
      * exists (c :: pre), post. simpl. rewrite Hs, He, E. auto.
      * intros [|j] Hj.
        -- now apply match_here_None in M.
        -- apply end_marker_at_cons in Hj. apply Hmin in Hj. lia.
Qed.

Lemma search_None (s : str) :
  SETUP_END_PATTERN_search s = None -> forall j, ~ end_marker_at s j.
Proof.
  induction s as [|c s IH]; cbn [SETUP_END_PATTERN_search].
  - destruct (match_here []) as [[n ds]|] eqn:M; [discriminate|].
    intros _ [|j] Hj.
    + now apply match_here_None in M.
    + destruct Hj as (ds & _ & Hj). now apply occurs_at_nil in Hj.
  - destruct (match_here (c :: s)) as [[n ds]|] eqn:M; [discriminate|].
    destruct (SETUP_END_PATTERN_search s) as [m'|] eqn:F; [discriminate|].
    intros _ [|j] Hj.
    + now apply match_here_None in M.
    + apply end_marker_at_cons in Hj. now apply (IH eq_refl j).
Qed.

Lemma search_unfold (s : str) :
  SETUP_END_PATTERN_search s =
    match match_here s with
    | Some (n, ds) => Some (mkMatch 0 n ds)
    | None =>
        match s with
        | [] => None
        | _ :: s' => option_map shift (SETUP_END_PATTERN_search s')
        end
    end.
Proof. destruct s; reflexivity. Qed.

(** Conversely, the leftmost end marker is what [search] returns. *)
Lemma search_first (mid ds post : str) :
  digits ds ->
  (forall j, end_marker_at (mid ++ end_marker ds ++ post) j -> length mid <= j) ->
  SETUP_END_PATTERN_search (mid ++ end_marker ds ++ post)
  = Some (mkMatch (length mid) (length mid + length (end_marker ds)) ds).
Proof.
  intros Hd. induction mid as [|c mid IH]; intros Hmin.
  - rewrite app_nil_l, search_unfold, match_here_marker by exact Hd.
    reflexivity.
  - rewrite <- app_comm_cons. cbn [SETUP_END_PATTERN_search length].
    destruct (match_here (c :: mid ++ end_marker ds ++ post)) as [[n d]|] eqn:M.
    + exfalso. destruct (match_here_Some _ _ _ M) as (Hd' & _ & p & E).
      assert (H : end_marker_at (c :: mid ++ end_marker ds ++ post) 0).
      { exists d. split; [exact Hd'|]. exists [], p. now rewrite E. }
      apply (Hmin 0%nat) in H. simpl in H. lia.
    + rewrite IH; [reflexivity|].
      intros j Hj. apply (end_marker_at_cons c) in Hj.
      apply Hmin in Hj. simpl in Hj. lia.
Qed.

End PatternLemmas.

Section StripLemmas.

Lemma in_chars_NL (c : ascii) :
  in_chars NL c = true -> c = ascii_of_nat 10.
Proof.
  unfold in_chars, NL. simpl. rewrite orb_false_r. apply Ascii.eqb_eq.
Qed.

Lemma lstrip_split (s : str) :
  exists a, newlines a /\ s = a ++ lstrip s NL.
Proof.
  induction s as [|c s (a & Ha & E)].
  - exists []. split; [constructor | reflexivity].
  - cbn [lstrip]. destruct (in_chars NL c) eqn:C.
    + exists (c :: a). split.
      * constructor; [now apply in_chars_NL | exact Ha].
      * simpl. now rewrite <- E.
    + exists []. split; [constructor | reflexivity].
Qed.

Lemma rstrip_split (s : str) :
  exists b, newlines b /\ s = rstrip s NL ++ b.
Proof.
  unfold rstrip. destruct (lstrip_split (rev s)) as (a & Ha & E).
  exists (rev a). split.
  - now apply Forall_rev.
  - rewrite <- rev_app_distr, <- E. symmetry. apply rev_involutive.
Qed.

(** [strip] removes a run of newlines at each end and nothing else. *)
Lemma strip_split (s : str) :
  exists a b, newlines a /\ newlines b /\ s = a ++ strip s NL ++ b.
Proof.
  unfold strip. destruct (lstrip_split s) as (a & Ha & E).
  destruct (rstrip_split (lstrip s NL)) as (b & Hb & E').
  exists a, b. repeat split; auto. now rewrite <- E', <- E.
Qed.

Lemma strip_length (s : str) : length (strip s NL) <= length s.
Proof.
  destruct (strip_split s) as (a & b & _ & _ & E).
  rewrite E at 2. rewrite !length_app. lia.
Qed.

Lemma occurs_inside (pat a x b : str) :
  occurs pat x -> occurs pat (a ++ x ++ b).
Proof.
  intros (i & pre & post & -> & _).
  exists (length (a ++ pre)), (a ++ pre), (post ++ b).
  split; [|reflexivity]. now rewrite <- !app_assoc.
Qed.

(** Trimming creates no occurrence. *)
Lemma occurs_strip (pat s : str) :
  occurs pat (strip s NL) -> occurs pat s.
Proof.
  intros H. destruct (strip_split s) as (a & b & _ & _ & E).
  rewrite E. now apply occurs_inside.
Qed.

Lemma len_app (a b : str) : len (a ++ b) = (len a + len b)%Z.
Proof. unfold len. rewrite length_app. lia. Qed.

Lemma int_acc_nonneg (ds : str) (acc : Z) :
  (0 <= acc)%Z ->
  (0 <= fold_left (fun a c => (10 * a + digit_value c)%Z) ds acc)%Z.
Proof.
  revert acc. induction ds as [|c ds IH]; intros acc H; cbn [fold_left];
    [exact H|].
  apply IH. unfold digit_value.
  pose proof (Nat2Z.is_nonneg (nat_of_ascii c - 48)). lia.
Qed.

(** [int] of a digit string is never the sentinel -1. *)
Lemma int_nonneg (ds : str) : (0 <= int ds)%Z.
Proof. apply int_acc_nonneg. lia. Qed.

End StripLemmas.

Lemma split_stream_cases (output : str) :
  split_case output (_split_stream output).
Proof.
  unfold _split_stream, find.
  destruct (find_from output SETUP_START) as [i|] eqn:F.
  - destruct (Z.eqb_spec (Z.of_nat i) (-1)); [lia|].
    destruct (find_from_Some _ _ _ F) as [(pre & rest & E & Hl) Hmin].
    assert (S : slice_from output (Z.of_nat i + len SETUP_START) = rest).
    { rewrite E, app_assoc, <- Hl.
      change (Z.of_nat (length pre)) with (len pre).
      rewrite <- len_app. apply slice_from_app. }
    rewrite S.
    destruct (SETUP_END_PATTERN_search rest) as [m|] eqn:Sr.
    + destruct (search_Some _ _ Sr) as (Hd & (mid & post & Er & Hs & He) & Hfirst).
      rewrite Hs, He.
      replace (slice_to rest (Z.of_nat (length mid))) with mid
        by (rewrite Er; symmetry; apply slice_to_app).
      replace (slice_from rest (Z.of_nat (length mid + length (end_marker (m_group1 m)))))
        with post.
      2:{ rewrite Er, app_assoc, <- length_app. symmetry.
          apply (slice_from_app (mid ++ end_marker (m_group1 m))). }
      apply (split_both output pre mid (m_group1 m) post).
      * now rewrite E, Er.
      * intros j Hj. rewrite Hl. now apply Hmin.
      * exact Hd.
      * intros j Hj. rewrite <- Hs. apply Hfirst. now rewrite Er.
    + apply (split_no_end output pre rest E).
      * intros j Hj. rewrite Hl. now apply Hmin.
      * now apply search_None.
  - simpl. apply split_no_start.
    intros [j Hj]. exact (find_from_None _ _ F j Hj).
Qed.

(** The hypotheses [first_start] and [first_end] can be checked by running
    the search functions. *)
Lemma first_start_by_find (output pre : str) :
  find_from output SETUP_START = Some (length pre) -> first_start output pre.
Proof. intros F j Hj. now apply (find_from_Some _ _ _ F). Qed.

Lemma first_end_by_search (rest mid : str) (m : Match) :
  SETUP_END_PATTERN_search rest = Some m -> m_start m = length mid ->
  first_end rest mid.
Proof.
  intros S E j Hj. rewrite <- E. now apply (search_Some _ _ S).
Qed.

Lemma first_start_nil (output : str) : first_start output [].
Proof. intros j _. simpl. lia. Qed.

Lemma split_stream_at_start (pre rest : str) :
  first_start (pre ++ SETUP_START ++ rest) pre ->
  _split_stream (pre ++ SETUP_START ++ rest) = split_after_start rest.
Proof.
  intros Hfirst. unfold _split_stream, find, split_after_start.
  rewrite (find_from_first SETUP_START _ (length pre));
    [| apply occurs_at_app | exact Hfirst].
  destruct (Z.eqb_spec (Z.of_nat (length pre)) (-1)); [lia|].
  replace (slice_from (pre ++ SETUP_START ++ rest)
             (Z.of_nat (length pre) + len SETUP_START)) with rest.
  - destruct (SETUP_END_PATTERN_search rest); reflexivity.
  - rewrite app_assoc. change (Z.of_nat (length pre)) with (len pre).
    rewrite <- len_app. symmetry. apply slice_from_app.
Qed.

Lemma split_after_start_both (mid ds post : str) :
  digits ds ->
  first_end (mid ++ end_marker ds ++ post) mid ->
  split_after_start (mid ++ end_marker ds ++ post)
  = (strip post NL, strip mid NL, Some (int ds)).
Proof.
  intros Hd Hfirst. unfold split_after_start.
  rewrite (search_first mid ds post Hd Hfirst). cbn [m_start m_end m_group1].
  change (Z.of_nat (length mid)) with (len mid). rewrite slice_to_app.
  rewrite <- length_app, app_assoc.
  change (Z.of_nat (length (mid ++ end_marker ds))) with (len (mid ++ end_marker ds)).
  now rewrite slice_from_app.
Qed.




Section TrimLemmas.

Lemma lstrip_head (s : str) (c : ascii) (t : str) :
  lstrip s NL = c :: t -> c <> ascii_of_nat 10.
Proof.
  induction s as [|x s IH]; cbn [lstrip]; [discriminate|].
  destruct (in_chars NL x) eqn:C; [exact IH|].
  intros [= <- _] ->. vm_compute in C. discriminate.
Qed.

Lemma strip_trimmed (s : str) : trimmed (strip s NL).
Proof.
  split; intros u E.
  - destruct (rstrip_split (lstrip s NL)) as (b & _ & Eb).
    fold (strip s NL) in Eb. rewrite E in Eb. simpl in Eb.
    now apply lstrip_head in Eb.
  - unfold strip, rstrip in E. apply (f_equal (@rev ascii)) in E.
    rewrite rev_involutive, rev_app_distr in E. simpl in E.
    now apply lstrip_head in E.
Qed.

(** [strip] trims the boundary newlines. *)
Lemma strip_trim (s : str) : trim_of s (strip s NL).
Proof.
  destruct (strip_split s) as (a & b & Ha & Hb & E).
  exists a, b. repeat split; auto; apply strip_trimmed.
Qed.

Lemma trim_of_occurs (pat s t : str) :
  trim_of s t -> occurs pat t -> occurs pat s.
Proof.
  intros (a & b & _ & _ & -> & _). apply occurs_inside.
Qed.

Lemma occurs_self (s : str) : occurs s s.
Proof. exists 0, [], []. simpl. now rewrite app_nil_r. Qed.

Lemma occurs_nil (s : str) : occurs [] s.
Proof. now exists 0, [], s. Qed.

Lemma occurs_app_l (pat s x : str) : occurs pat s -> occurs pat (s ++ x).
Proof.
  intros H. apply (occurs_inside pat [] s x) in H. exact H.
Qed.

Lemma occurs_app_r (pat s x : str) : occurs pat s -> occurs pat (x ++ s).
Proof.
  intros H. apply (occurs_inside pat x s []) in H.
  now rewrite app_nil_r in H.
Qed.

(** Trimmed parts put side by side give back the whole only when nothing
    was trimmed. *)
Lemma trim_concat (mid post setup test : str) :
  trim_of mid setup -> trim_of post test ->
  (setup ++ test = mid ++ post <-> setup = mid /\ test = post).
Proof.
  intros (a & b & _ & _ & Em & _) (c & d & _ & _ & Ep & _). split.
  - intros E. apply (f_equal (@length ascii)) in E.
    rewrite Em, Ep in E. rewrite !length_app in E.
    destruct a; [|simpl in E; lia]. destruct b; [|simpl in E; lia].
    destruct c; [|simpl in E; lia]. destruct d; [|simpl in E; lia].
    rewrite Em, Ep. simpl. now rewrite !app_nil_r.
  - now intros [-> ->].
Qed.

Lemma app_inv_length (a a' b b' : str) :
  length a = length a' -> a ++ b = a' ++ b' -> a = a' /\ b = b'.
Proof.
  revert a'. induction a as [|x a IH]; intros [|x' a'] L E;
    try discriminate; simpl in *.
  - now split.
  - injection E as -> E. injection L as L.
    destruct (IH _ L E) as [-> ->]. now split.
Qed.

(** The first start marker is at one place only. *)
Lemma first_start_unique (pre rest pre' rest' : str) :
  pre ++ SETUP_START ++ rest = pre' ++ SETUP_START ++ rest' ->
  first_start (pre ++ SETUP_START ++ rest) pre ->
  first_start (pre ++ SETUP_START ++ rest) pre' ->
  pre = pre' /\ rest = rest'.
Proof.
  intros E H H'.
  assert (L : length pre = length pre').
  { apply Nat.le_antisymm.
    - apply H. rewrite E. apply occurs_at_app.
    - apply H'. apply occurs_at_app. }
  destruct (app_inv_length _ _ _ _ L E) as [-> E2].
  split; [reflexivity|]. now apply app_inv_head in E2.
Qed.

End TrimLemmas.

(** The absence of an occurrence can be checked by running the search. *)
Lemma no_occurrence_by_find (pat s : str) :
  find_from s pat = None -> ~ occurs pat s.
Proof. intros F [j Hj]. exact (find_from_None _ _ F j Hj). Qed.

(* ------------------------------------------------------------------ *)
(** ** Where the splitter raises *)

Lemma int_argument_at_start (pre rest : str) :
  first_start (pre ++ SETUP_START ++ rest) pre ->
  int_argument (pre ++ SETUP_START ++ rest)
  = option_map m_group1 (SETUP_END_PATTERN_search rest).
Proof.
  intros Hfirst. unfold int_argument, find.
  rewrite (find_from_first SETUP_START _ (length pre));
    [| apply occurs_at_app | exact Hfirst].
  destruct (Z.eqb_spec (Z.of_nat (length pre)) (-1)); [lia|].
  replace (slice_from (pre ++ SETUP_START ++ rest)
             (Z.of_nat (length pre) + len SETUP_START)) with rest.
  - destruct (SETUP_END_PATTERN_search rest); reflexivity.
  - rewrite app_assoc. change (Z.of_nat (length pre)) with (len pre).
    rewrite <- len_app. symmetry. apply slice_from_app.
Qed.

Lemma int_argument_both (pre mid ds post : str) :
  first_start (pre ++ SETUP_START ++ mid ++ end_marker ds ++ post) pre ->
  digits ds ->
  first_end (mid ++ end_marker ds ++ post) mid ->
  int_argument (pre ++ SETUP_START ++ mid ++ end_marker ds ++ post) = Some ds.
Proof.
  intros Hs Hd He. rewrite (int_argument_at_start pre _ Hs).
  now rewrite (search_first mid ds post Hd He).
Qed.

Lemma int_argument_no_start (output : str) :
  ~ occurs SETUP_START output -> int_argument output = None.
Proof.
  intros Hn. unfold int_argument, find.
  destruct (find_from output SETUP_START) as [i|] eqn:F; [|reflexivity].
  exfalso. apply Hn. exists i. now apply (find_from_Some _ _ _ F).
Qed.

(** Without a start marker the splitter does not reach [int]. *)
Lemma split_stream_raises_no_start (output : str) :
  ~ occurs SETUP_START output -> split_stream_raises output = false.
Proof.
  intros Hn. unfold split_stream_raises. now rewrite (int_argument_no_start _ Hn).
Qed.

(** When neither split raises, the two calls return what the functions
    compute. *)
Lemma split_outcome_returns (output : str) :
  split_stream_raises output = false ->
  split_stream_outcome output = inr (_split_stream output).
Proof.
  unfold split_stream_raises, split_stream_outcome.
  destruct (int_argument output) as [ds|]; [|reflexivity].
  now intros ->.
Qed.

Lemma split_outcome_raises (output : str) :
  split_stream_raises output = true ->
  exists ds, int_argument output = Some ds
             /\ split_stream_outcome output = inl (ValueError (int_error ds)).
Proof.
  unfold split_stream_raises, split_stream_outcome.
  destruct (int_argument output) as [ds|]; [|discriminate].
  intros H. exists ds. now rewrite H.
Qed.

Lemma parse_outcome_returns (sb : SandboxResult.t) :
  split_stream_raises (SandboxResult.stdout sb) = false ->
  split_stream_raises (SandboxResult.stderr sb) = false ->
  parse_sandbox_result_outcome sb = inr (_parse_sandbox_result sb).
Proof.
  intros H1 H2. unfold parse_sandbox_result_outcome.
  now rewrite (split_outcome_returns _ H1), (split_outcome_returns _ H2).
Qed.

Example scenario_A_parsed :
  _parse_sandbox_result scenario_A =
    (CommandResult.mk [] (Some 0%Z) (str_of "1 passed") [],
     CommandResult.mk [] (Some 0%Z) (str_of "building") []).
Proof. vm_compute. reflexivity. Qed.

Example scenario_B_parsed :
  _parse_sandbox_result scenario_B =
    (CommandResult.mk [] None [] [],
     CommandResult.mk [] (Some 137%Z) (str_of "installing deps...") []).
Proof. vm_compute. reflexivity. Qed.

Example scenario_C_parsed :
  _parse_sandbox_result scenario_C =
    (CommandResult.mk [] (Some 1%Z) (str_of "3 passed, 1 failed") [],
     CommandResult.mk [] None [] []).
Proof. vm_compute. reflexivity. Qed.

(** Scenario D: [int] refuses the 4301 digits, and the ValueError leaves
    [_split_stream], [_parse_sandbox_result] and the action. *)
Example scenario_D_split_raises :
  split_stream_outcome (SandboxResult.stdout scenario_D)
  = inl (ValueError (int_error long_code)).
Proof. vm_compute. reflexivity. Qed.

Example scenario_D_parse_raises :
  parse_sandbox_result_outcome scenario_D
  = inl (ValueError (int_error long_code)).
Proof. vm_compute. reflexivity. Qed.

Example scenario_D_action_raises :
  run_unit_tests_action (runner_returning scenario_D) parser_without_counts
    local_runner_one_passed (str_of "test_app.py") (str_of "/work")
    (str_of "test_result") (Some (str_of "setup_result"))
    (PyStr (str_of "python")) (PyBool false) (PyInt 300) fresh_world
  = (Raised (ValueError (int_error long_code)),
     mkWorld (mkFrame (Bound scenario_D) Unbound Unbound)
       [SandboxRun (str_of "python") (str_of "test_app.py") (str_of "/work")
          [str_of "python -m pytest -v 'test_app.py'"]
          (PyInt 300) (PyBool false)]).
Proof. vm_compute. reflexivity. Qed.

Example int_error_long_code :
  int_error long_code
  = str_of "Exceeds the limit (4300 digits) for integer string conversion: value has 4301 digits; use sys.set_int_max_str_digits() to increase the limit".
Proof. vm_compute. reflexivity. Qed.

(* ================================================================== *)
(** * Properties: CommandResult, the splitter and the reconciler *)
(* ================================================================== *)

Example int_137 : int (str_of "137") = 137%Z.
Proof. reflexivity. Qed.

Example end_marker_137 : end_marker (str_of "137") = str_of "::setup:end:137::".
Proof. reflexivity. Qed.

Example search_scenario_A :
  SETUP_END_PATTERN_search
    (NL ++ str_of "building" ++ NL ++ str_of "::setup:end:0::" ++ NL
        ++ str_of "1 passed")
  = Some (mkMatch 10 25 (str_of "0")).
Proof. reflexivity. Qed.

Example strip_inner_newline :
  strip (NL ++ NL ++ str_of "a" ++ NL ++ str_of " b " ++ NL) NL
  = str_of "a" ++ NL ++ str_of " b ".
Proof. reflexivity. Qed.

(** C9.  [success] of a CommandResult is true exactly when its returncode is
    zero; with an absent or a nonzero returncode it is false, so an absent
    returncode is never taken for success. *)
Theorem success_iff_returncode_zero (r : CommandResult.t) :
  (CommandResult.success r = true <-> CommandResult.returncode r = Some 0%Z)
  /\ (CommandResult.success r = false <-> CommandResult.returncode r <> Some 0%Z).
Proof.
  unfold CommandResult.success.
  destruct (CommandResult.returncode r) as [c|].
  - destruct (Z.eqb_spec c 0) as [->|Hc]; repeat split;
      intros; try reflexivity; try discriminate; try congruence.
  - repeat split; intros; try reflexivity; discriminate.
Qed.

(** C1.  When the setup code chosen from the two streams is the sentinel -1,
    or the test contents of stdout and stderr are both empty,
    [_parse_sandbox_result] returns a test result with no returncode and a
    setup result whose returncode is the sandbox's exit code, whatever setup
    code either stream carried. *)
Theorem parse_sandbox_result_promotion
    (sb : SandboxResult.t)
    (pytest_stdout setup_stdout pytest_stderr setup_stderr : str)
    (setup_stdout_code setup_stderr_code : option Z) :
  _split_stream (SandboxResult.stdout sb)
    = (pytest_stdout, setup_stdout, setup_stdout_code) ->
  _split_stream (SandboxResult.stderr sb)
    = (pytest_stderr, setup_stderr, setup_stderr_code) ->
  match setup_stdout_code with
  | Some c => Some c
  | None => setup_stderr_code
  end = Some (-1)%Z
  \/ (pytest_stdout = [] /\ pytest_stderr = []) ->
  CommandResult.returncode (fst (_parse_sandbox_result sb)) = None
  /\ CommandResult.returncode (snd (_parse_sandbox_result sb))
     = Some (SandboxResult.exit_code sb).
Proof.
  intros E1 E2 H. unfold _parse_sandbox_result. rewrite E1, E2.
  set (code := match setup_stdout_code with
               | Some c => Some c
               | None => setup_stderr_code
               end) in *.
  assert (T : opt_Z_eqb code (-1)
              || (str_eqb pytest_stdout [] && str_eqb pytest_stderr []) = true).
  { destruct H as [-> | [-> ->]].
    - reflexivity.
    - apply orb_true_r. }
  rewrite T. split; reflexivity.
Qed.

Lemma parse_sandbox_result_promotion_witness :
  CommandResult.returncode (fst (_parse_sandbox_result scenario_B)) = None
  /\ CommandResult.returncode (snd (_parse_sandbox_result scenario_B)) = Some 137%Z.
Proof.
  apply (parse_sandbox_result_promotion scenario_B
           [] (str_of "installing deps...") [] [] (Some (-1)%Z) None).
  - vm_compute. reflexivity.
  - vm_compute. reflexivity.
  - left. reflexivity.
Defined.




(** C7, as the code has it.  When [_split_stream] finds both markers, the
    setup content and the test content are the text between the markers and
    the text after the end marker, each with its boundary newlines trimmed.
    Put side by side they give back the text that follows the start marker
    without the end marker exactly when no newline was trimmed. *)
Theorem split_stream_concat (text test setup : str) (code : Z) :
  _split_stream text = (test, setup, Some code) ->
  code <> (-1)%Z ->
  exists pre mid ds post,
    text = pre ++ SETUP_START ++ mid ++ end_marker ds ++ post
    /\ first_start text pre
    /\ digits ds
    /\ first_end (mid ++ end_marker ds ++ post) mid
    /\ code = int ds
    /\ trim_of mid setup
    /\ trim_of post test
    /\ (setup ++ test = mid ++ post <-> setup = mid /\ test = post).
Proof.
  intros E Hc. pose proof (split_stream_cases text) as C. rewrite E in C.
  inversion C as [Hn | pre rest Et Hs Hn | pre mid ds post Et Hs Hd He]; subst.
  - congruence.
  - exists pre, mid, ds, post.
    split; [reflexivity|]. split; [exact Hs|]. split; [exact Hd|].
    split; [exact He|]. split; [reflexivity|].
    split; [apply strip_trim|]. split; [apply strip_trim|].
    apply trim_concat; apply strip_trim.
Qed.

Lemma split_stream_concat_witness :
  exists pre mid ds post,
    SandboxResult.stdout scenario_A
      = pre ++ SETUP_START ++ mid ++ end_marker ds ++ post
    /\ 0%Z = int ds
    /\ trim_of mid (str_of "building")
    /\ trim_of post (str_of "1 passed").
Proof.
  destruct (split_stream_concat (SandboxResult.stdout scenario_A)
              (str_of "1 passed") (str_of "building") 0%Z)
    as (pre & mid & ds & post & E & _ & _ & _ & Ec & Tm & Tp & _).
  - vm_compute. reflexivity.
  - discriminate.
  - exists pre, mid, ds, post. auto.
Defined.

(** C7 as stated fails: in scenario A both markers are found, and the setup
    content followed by the test content is not the text after the start
    marker without the end marker; the boundary newlines are missing. *)
Lemma split_stream_concat_counterexample :
  SandboxResult.stdout scenario_A
    = SETUP_START ++ (NL ++ str_of "building" ++ NL)
        ++ end_marker (str_of "0") ++ (NL ++ str_of "1 passed")
  /\ _split_stream (SandboxResult.stdout scenario_A)
     = (str_of "1 passed", str_of "building", Some 0%Z)
  /\ str_of "building" ++ str_of "1 passed"
     <> (NL ++ str_of "building" ++ NL) ++ (NL ++ str_of "1 passed").
Proof.
  repeat split; try (vm_compute; reflexivity).
  vm_compute. discriminate.
Qed.

(** C10.  Whatever stands before the first start marker is dropped: the
    result of [_split_stream] is the same as for the text that begins at
    that marker, and both returned slices are cut from the text after it. *)
Theorem split_stream_discards_prefix (pre rest : str) :
  first_start (pre ++ SETUP_START ++ rest) pre ->
  _split_stream (pre ++ SETUP_START ++ rest) = _split_stream (SETUP_START ++ rest)
  /\ occurs (fst (fst (_split_stream (pre ++ SETUP_START ++ rest)))) rest
  /\ occurs (snd (fst (_split_stream (pre ++ SETUP_START ++ rest)))) rest.
Proof.
  intros Hs. split.
  - rewrite (split_stream_at_start pre rest Hs).
    rewrite <- (app_nil_l (SETUP_START ++ rest)).
    rewrite (split_stream_at_start [] rest); [reflexivity|].
    apply first_start_nil.
  - pose proof (split_stream_cases (pre ++ SETUP_START ++ rest)) as C.
    remember (pre ++ SETUP_START ++ rest) as text eqn:Et.
    destruct C as [Hn | pre' rest' Et' Hs' Hn | pre' mid ds post Et' Hs' Hd He];
      cbn [fst snd]; subst text.
    + exfalso. apply Hn. exists (length pre). apply occurs_at_app.
    + destruct (first_start_unique _ _ _ _ Et' Hs Hs') as [_ <-].
      split; [apply occurs_nil|].
      apply (trim_of_occurs _ _ _ (strip_trim rest)), occurs_self.
    + destruct (first_start_unique _ _ _ _ Et' Hs Hs') as [_ ->].
      split.
      * apply occurs_app_r, occurs_app_r.
        apply (trim_of_occurs _ _ _ (strip_trim post)), occurs_self.
      * apply occurs_app_l.
        apply (trim_of_occurs _ _ _ (strip_trim mid)), occurs_self.
Qed.

Lemma split_stream_discards_prefix_witness :
  _split_stream (str_of "noise ::setup:end:7:: " ++ SETUP_START
                   ++ NL ++ str_of "installing deps...")
  = _split_stream (SETUP_START ++ NL ++ str_of "installing deps...").
Proof.
  refine (proj1 (split_stream_discards_prefix (str_of "noise ::setup:end:7:: ")
                   (NL ++ str_of "installing deps...") _)).
  apply first_start_by_find. vm_compute. reflexivity.
Defined.

(* ================================================================== *)
(** * Properties: the unit-test action *)
(* ================================================================== *)

Lemma str_eqb_refl (s : str) : str_eqb s s = true.
Proof. unfold str_eqb. destruct (list_eq_dec ascii_dec s s); congruence. Qed.

Lemma str_eqb_neq (s t : str) : s <> t -> str_eqb s t = false.
Proof. unfold str_eqb. destruct (list_eq_dec ascii_dec s t); congruence. Qed.

Lemma split_stream_no_start (output : str) :
  ~ occurs SETUP_START output ->
  _split_stream output = (strip output NL, [], None).
Proof.
  intros Hn. pose proof (split_stream_cases output) as C.
  destruct C as [_ | pre rest Et _ _ | pre mid ds post Et _ _ _];
    [reflexivity | exfalso; apply Hn ..];
    exists (length pre); rewrite Et; apply occurs_at_app.
Qed.

(** Without a start marker in either stream the setup result is empty. *)
Lemma parse_sandbox_result_no_start (sb : SandboxResult.t) :
  ~ occurs SETUP_START (SandboxResult.stdout sb) ->
  ~ occurs SETUP_START (SandboxResult.stderr sb) ->
  CommandResult.stdout (snd (_parse_sandbox_result sb)) = []
  /\ CommandResult.stderr (snd (_parse_sandbox_result sb)) = []
  /\ (CommandResult.returncode (snd (_parse_sandbox_result sb)) = None
      \/ CommandResult.returncode (fst (_parse_sandbox_result sb)) = None).
Proof.
  intros H1 H2. unfold _parse_sandbox_result.
  rewrite (split_stream_no_start _ H1), (split_stream_no_start _ H2).
  cbn [opt_Z_eqb orb].
  destruct (str_eqb (strip (SandboxResult.stdout sb) NL) []
            && str_eqb (strip (SandboxResult.stderr sb) NL) []);
    cbn; auto.
Qed.

Section ActionLemmas.

Variable SandboxRunner_run :
  str -> str -> str -> list str -> PyValue -> PyValue -> exn + SandboxResult.t.
Variable parse_python_unit_test_results : SandboxResult.t -> exn + UnitTestResult.t.
Variable run_python_unit_tests : str -> str -> exn + UnitTestResult.t.

Variables (filename dir property name : str) (setup_property : option str).
Variables (stream_logs timeout : PyValue).

Let action := run_unit_tests_action SandboxRunner_run
                parse_python_unit_test_results run_python_unit_tests
                filename dir property setup_property.

Let command : list str :=
  [str_of "python -m pytest -v '" ++ filename ++ str_of "'"].

Ltac run_to_parse Hname Hrun :=
  subst action; unfold run_unit_tests_action;
  cbn [truthy]; rewrite (str_eqb_neq _ _ Hname); cbn [negb];
  fold command; unfold bind at 1 2 3;
  cbn [ret emit fresh_world frame trace app];
  unfold bind at 1 2; rewrite Hrun;
  cbn -[parse_sandbox_result_outcome _parse_sandbox_result].

(** A sandboxed run in which a split raises. *)
Lemma sandboxed_run_split_raises (sb : SandboxResult.t) (e : exn) :
  name <> [] ->
  SandboxRunner_run name filename dir command timeout stream_logs = inr sb ->
  parse_sandbox_result_outcome sb = inl e ->
  action (PyStr name) stream_logs timeout fresh_world
  = (Raised e,
     mkWorld (mkFrame (Bound sb) Unbound Unbound)
       [SandboxRun name filename dir command timeout stream_logs]).
Proof.
  intros Hname Hrun Hsplit. run_to_parse Hname Hrun.
  rewrite Hsplit. reflexivity.
Qed.

(** A sandboxed run whose test phase did not start. *)
Lemma sandboxed_run_tests_absent (sb : SandboxResult.t) :
  name <> [] ->
  SandboxRunner_run name filename dir command timeout stream_logs = inr sb ->
  parse_sandbox_result_outcome sb = inr (_parse_sandbox_result sb) ->
  CommandResult.returncode (fst (_parse_sandbox_result sb)) = None ->
  let test := fst (_parse_sandbox_result sb) in
  let setup := snd (_parse_sandbox_result sb) in
  let r := UnitTestResult.mk command None 0 0
             (CommandResult.stdout test) (CommandResult.stderr test) in
  action (PyStr name) stream_logs timeout fresh_world
  = (Returned tt,
     mkWorld (mkFrame (Bound sb) (Bound (Some setup)) (Bound r))
       ([SandboxRun name filename dir command timeout stream_logs;
         Push property (PubUnitTest r)] ++ setup_push setup_property setup)).
Proof.
  intros Hname Hrun Hsplit Hcode. run_to_parse Hname Hrun.
  rewrite Hsplit.
  destruct (_parse_sandbox_result sb) as [test setup] eqn:P.
  cbn [fst snd] in Hcode |- *. cbn. rewrite Hcode. cbn.
  unfold setup_push, truthy_key.
  destruct setup_property as [key|]; [|reflexivity].
  destruct (str_eqb key []); reflexivity.
Qed.

(** A sandboxed run whose test phase has an exit code. *)
Lemma sandboxed_run_tests_present (sb : SandboxResult.t) (c : Z)
    (parsed : UnitTestResult.t) :
  name <> [] ->
  SandboxRunner_run name filename dir command timeout stream_logs = inr sb ->
  parse_sandbox_result_outcome sb = inr (_parse_sandbox_result sb) ->
  CommandResult.returncode (fst (_parse_sandbox_result sb)) = Some c ->
  let test := fst (_parse_sandbox_result sb) in
  let setup := snd (_parse_sandbox_result sb) in
  let arg := SandboxResult.mk (SandboxResult.exit_code sb)
               (CommandResult.stdout test) (CommandResult.stderr test) in
  parse_python_unit_test_results arg = inr parsed ->
  let r := UnitTestResult.set_command parsed command in
  action (PyStr name) stream_logs timeout fresh_world
  = (Returned tt,
     mkWorld (mkFrame (Bound arg) (Bound (Some setup)) (Bound r))
       ([SandboxRun name filename dir command timeout stream_logs;
         ParseReport arg;
         Push property (PubUnitTest r)] ++ setup_push setup_property setup)).
Proof.
  intros Hname Hrun Hsplit Hcode test setup arg Hparse r.
  run_to_parse Hname Hrun. rewrite Hsplit.
  subst test setup arg r.
  destruct (_parse_sandbox_result sb) as [test setup] eqn:P.
  cbn [fst snd] in Hcode, Hparse |- *. cbn. rewrite Hcode. cbn.
  rewrite Hparse. cbn.
  unfold setup_push, truthy_key.
  destruct setup_property as [key|]; [|reflexivity].
  destruct (str_eqb key []); reflexivity.
Qed.

End ActionLemmas.

(** C2, checked on the code.  With no sandbox (a sandbox parameter that is
    [None] or otherwise false) and a local runner that returns [r], the action
    runs the test file locally, publishes [r] under the test-result key and
    publishes no setup result; after that it does not complete: the read of
    the local [setup_result], never assigned on this path, raises
    [UnboundLocalError]. *)
Theorem local_run_raises_unbound_local
    (SandboxRunner_run :
       str -> str -> str -> list str -> PyValue -> PyValue -> exn + SandboxResult.t)
    (parse_python_unit_test_results : SandboxResult.t -> exn + UnitTestResult.t)
    (run_python_unit_tests : str -> str -> exn + UnitTestResult.t)
    (filename dir property : str) (setup_property : option str)
    (sandbox stream_logs timeout : PyValue) (r : UnitTestResult.t) :
  truthy sandbox = false ->
  run_python_unit_tests dir filename = inr r ->
  run_unit_tests_action SandboxRunner_run parse_python_unit_test_results
    run_python_unit_tests filename dir property setup_property
    sandbox stream_logs timeout fresh_world
  = (Raised (UnboundLocalError "setup_result"),
     mkWorld (mkFrame Unbound Unbound (Bound r))
       [LocalRun dir filename; Push property (PubUnitTest r)]).
Proof.
  intros Hs Hr. unfold run_unit_tests_action. rewrite Hs.
  unfold bind at 1 2 3. cbn [emit fresh_world frame trace app].
  rewrite Hr. reflexivity.
Qed.

Lemma local_run_raises_unbound_local_witness :
  run_unit_tests_action (runner_returning scenario_A) parser_without_counts
    local_runner_one_passed (str_of "test_app.py") (str_of "/work")
    (str_of "test_result") (Some (str_of "setup_result"))
    PyNone (PyBool false) (PyInt 300) fresh_world
  = (Raised (UnboundLocalError "setup_result"),
     mkWorld (mkFrame Unbound Unbound (Bound one_passed))
       [LocalRun (str_of "/work") (str_of "test_app.py");
        Push (str_of "test_result") (PubUnitTest one_passed)]).
Proof.
  apply local_run_raises_unbound_local; reflexivity.
Defined.

(** C3, as the code has it.  In a sandboxed invocation with a setup-result key
    set, where the sandbox runner returns, both streams are split without a
    ValueError and the report parser, if it is called, returns, the action
    returns and publishes exactly one setup CommandResult under that key,
    whether a start marker was found or not; when neither stream has a start
    marker that result has empty stdout and stderr. *)
Theorem sandboxed_run_publishes_setup
    (SandboxRunner_run :
       str -> str -> str -> list str -> PyValue -> PyValue -> exn + SandboxResult.t)
    (parse_python_unit_test_results : SandboxResult.t -> exn + UnitTestResult.t)
    (run_python_unit_tests : str -> str -> exn + UnitTestResult.t)
    (filename dir property key name : str)
    (stream_logs timeout : PyValue) (sb : SandboxResult.t) :
  name <> [] ->
  key <> [] ->
  SandboxRunner_run name filename dir
    [str_of "python -m pytest -v '" ++ filename ++ str_of "'"]
    timeout stream_logs = inr sb ->
  splits_return sb ->
  parser_returns parse_python_unit_test_results sb ->
  exists w,
    run_unit_tests_action SandboxRunner_run parse_python_unit_test_results
      run_python_unit_tests filename dir property (Some key)
      (PyStr name) stream_logs timeout fresh_world
    = (Returned tt, w)
    /\ setup_published key (trace w) = [snd (_parse_sandbox_result sb)]
    /\ (~ occurs SETUP_START (SandboxResult.stdout sb) ->
        ~ occurs SETUP_START (SandboxResult.stderr sb) ->
        CommandResult.stdout (snd (_parse_sandbox_result sb)) = []
        /\ CommandResult.stderr (snd (_parse_sandbox_result sb)) = []).
Proof.
  intros Hname Hkey Hrun [Hs1 Hs2] Hparse.
  pose proof (parse_outcome_returns sb Hs1 Hs2) as Hsplit.
  assert (Hpush : setup_published key
                    (setup_push (Some key) (snd (_parse_sandbox_result sb)))
                  = [snd (_parse_sandbox_result sb)]).
  { unfold setup_push. rewrite (str_eqb_neq _ _ Hkey). cbn.
    now rewrite str_eqb_refl. }
  destruct (CommandResult.returncode (fst (_parse_sandbox_result sb)))
    as [c|] eqn:Hc.
  - destruct Hparse as [parsed Hp]; [rewrite Hc; discriminate|].
    unfold parser_argument in Hp.
    eexists. split; [|split].
    + apply (sandboxed_run_tests_present _ _ _ _ _ _ _ _ _ _ sb c parsed
               Hname Hrun Hsplit Hc Hp).
    + cbn [trace]. unfold setup_published in *. rewrite flat_map_app.
      cbn [flat_map app]. exact Hpush.
    + intros H1 H2. destruct (parse_sandbox_result_no_start sb H1 H2) as (? & ? & _).
      now split.
  - eexists. split; [|split].
    + apply (sandboxed_run_tests_absent _ _ _ _ _ _ _ _ _ _ sb Hname Hrun Hsplit Hc).
    + cbn [trace]. unfold setup_published in *. rewrite flat_map_app.
      cbn [flat_map app]. exact Hpush.
    + intros H1 H2. destruct (parse_sandbox_result_no_start sb H1 H2) as (? & ? & _).
      now split.
Qed.

Lemma sandboxed_run_publishes_setup_witness :
  exists w,
    run_unit_tests_action (runner_returning scenario_A) parser_without_counts
      local_runner_one_passed (str_of "test_app.py") (str_of "/work")
      (str_of "test_result") (Some (str_of "setup_result"))
      (PyStr (str_of "python")) (PyBool false) (PyInt 300) fresh_world
    = (Returned tt, w)
    /\ setup_published (str_of "setup_result") (trace w)
       = [CommandResult.mk [] (Some 0%Z) (str_of "building") []].
Proof.
  destruct (sandboxed_run_publishes_setup (runner_returning scenario_A)
              parser_without_counts local_runner_one_passed
              (str_of "test_app.py") (str_of "/work") (str_of "test_result")
              (str_of "setup_result") (str_of "python")
              (PyBool false) (PyInt 300) scenario_A)
    as (w & Hrun & Hpub & _).
  - discriminate.
  - discriminate.
  - reflexivity.
  - split; vm_compute; reflexivity.
  - intros _. eexists. reflexivity.
  - exists w. split; [exact Hrun|]. rewrite Hpub. vm_compute. reflexivity.
Defined.

(** C3 as stated fails: in scenario C neither stream has a start marker, and
    the action still publishes a setup result under the setup key. *)
Lemma setup_published_without_start_marker :
  ~ occurs SETUP_START (SandboxResult.stdout scenario_C)
  /\ ~ occurs SETUP_START (SandboxResult.stderr scenario_C)
  /\ setup_published (str_of "setup_result")
       (trace (snd (run_unit_tests_action (runner_returning scenario_C)
                      parser_without_counts local_runner_one_passed
                      (str_of "test_app.py") (str_of "/work")
                      (str_of "test_result") (Some (str_of "setup_result"))
                      (PyStr (str_of "python")) (PyBool false) (PyInt 300)
                      fresh_world)))
     = [CommandResult.mk [] None [] []]
  /\ setup_published (str_of "setup_result")
       (trace (snd (run_unit_tests_action (runner_returning scenario_C)
                      parser_without_counts local_runner_one_passed
                      (str_of "test_app.py") (str_of "/work")
                      (str_of "test_result") (Some (str_of "setup_result"))
                      (PyStr (str_of "python")) (PyBool false) (PyInt 300)
                      fresh_world)))
     <> [].
Proof.
  split; [|split; [|split]].
  - apply no_occurrence_by_find. vm_compute. reflexivity.
  - apply no_occurrence_by_find. vm_compute. reflexivity.
  - vm_compute. reflexivity.
  - vm_compute. discriminate.
Qed.

(** C4, as the code has it.  In a sandboxed invocation where the sandbox
    runner returns, both streams are split without a ValueError and the
    report parser, if it is called, returns, the SandboxResult object keeps
    its exit code.  With an absent test returncode it is left as returned.
    With a present test returncode its stdout and stderr are assigned the
    test contents before the parser sees it, so that it still has its
    original streams only if these equal their test contents; the
    UnitTestResult of the parser has its command assigned. *)
Theorem sandbox_result_after_action
    (SandboxRunner_run :
       str -> str -> str -> list str -> PyValue -> PyValue -> exn + SandboxResult.t)
    (parse_python_unit_test_results : SandboxResult.t -> exn + UnitTestResult.t)
    (run_python_unit_tests : str -> str -> exn + UnitTestResult.t)
    (filename dir property name : str) (setup_property : option str)
    (stream_logs timeout : PyValue) (sb : SandboxResult.t) :
  name <> [] ->
  SandboxRunner_run name filename dir
    [str_of "python -m pytest -v '" ++ filename ++ str_of "'"]
    timeout stream_logs = inr sb ->
  splits_return sb ->
  parser_returns parse_python_unit_test_results sb ->
  exists w,
    run_unit_tests_action SandboxRunner_run parse_python_unit_test_results
      run_python_unit_tests filename dir property setup_property
      (PyStr name) stream_logs timeout fresh_world
    = (Returned tt, w)
    /\ sandbox_result (frame w)
       = Bound (match CommandResult.returncode (fst (_parse_sandbox_result sb)) with
                | Some _ => parser_argument sb
                | None => sb
                end)
    /\ (sandbox_result (frame w) = Bound sb <->
        CommandResult.returncode (fst (_parse_sandbox_result sb)) = None
        \/ (CommandResult.stdout (fst (_parse_sandbox_result sb))
            = SandboxResult.stdout sb
            /\ CommandResult.stderr (fst (_parse_sandbox_result sb))
               = SandboxResult.stderr sb))
    /\ (forall c,
          CommandResult.returncode (fst (_parse_sandbox_result sb)) = Some c ->
          exists parsed,
            parse_python_unit_test_results (parser_argument sb) = inr parsed
            /\ parser_calls (trace w) = [parser_argument sb]
            /\ result (frame w)
               = Bound (UnitTestResult.set_command parsed
                          [str_of "python -m pytest -v '" ++ filename ++ str_of "'"])).
Proof.
  intros Hname Hrun [Hs1 Hs2] Hparse.
  pose proof (parse_outcome_returns sb Hs1 Hs2) as Hsplit.
  destruct (CommandResult.returncode (fst (_parse_sandbox_result sb)))
    as [c|] eqn:Hc.
  - destruct Hparse as [parsed Hp]; [rewrite Hc; discriminate|].
    pose proof Hp as Hp'. unfold parser_argument in Hp'.
    eexists. split; [|split; [|split]].
    + apply (sandboxed_run_tests_present _ _ _ _ _ _ _ _ _ _ sb c parsed
               Hname Hrun Hsplit Hc Hp').
    + reflexivity.
    + cbn [frame sandbox_result]. fold (parser_argument sb). split.
      * intros [= E]. right. rewrite <- E at 2 4. split; reflexivity.
      * intros [H | [H1 H2]]; [discriminate|].
        unfold parser_argument. rewrite H1, H2. now destruct sb.
    + intros c' _. exists parsed. split; [exact Hp|]. split.
      * cbn [trace]. unfold parser_calls. rewrite flat_map_app.
        fold (parser_calls (setup_push setup_property
                              (snd (_parse_sandbox_result sb)))).
        unfold setup_push. destruct setup_property as [key|]; [|reflexivity].
        destruct (str_eqb key []); reflexivity.
      * reflexivity.
  - eexists. split; [|split; [|split]].
    + apply (sandboxed_run_tests_absent _ _ _ _ _ _ _ _ _ _ sb Hname Hrun Hsplit Hc).
    + reflexivity.
    + split; [now left | reflexivity].
    + intros c' H. discriminate.
Qed.

Lemma sandbox_result_after_action_witness :
  exists w,
    run_unit_tests_action (runner_returning scenario_A) parser_without_counts
      local_runner_one_passed (str_of "test_app.py") (str_of "/work")
      (str_of "test_result") (Some (str_of "setup_result"))
      (PyStr (str_of "python")) (PyBool false) (PyInt 300) fresh_world
    = (Returned tt, w)
    /\ sandbox_result (frame w)
       = Bound (SandboxResult.mk 0 (str_of "1 passed") []).
Proof.
  destruct (sandbox_result_after_action (runner_returning scenario_A)
              parser_without_counts local_runner_one_passed
              (str_of "test_app.py") (str_of "/work") (str_of "test_result")
              (str_of "python") (Some (str_of "setup_result"))
              (PyBool false) (PyInt 300) scenario_A)
    as (w & Hrun & Hsb & _).
  - discriminate.
  - reflexivity.
  - split; vm_compute; reflexivity.
  - intros _. eexists. reflexivity.
  - exists w. split; [exact Hrun|]. rewrite Hsb. vm_compute. reflexivity.
Defined.

(** C4 as stated fails: in scenario A the SandboxResult object that the
    sandbox runner returned no longer has its stdout when the action ends. *)
Lemma sandbox_result_stdout_overwritten :
  runner_returning scenario_A (str_of "python") (str_of "test_app.py")
    (str_of "/work") [str_of "python -m pytest -v 'test_app.py'"]
    (PyInt 300) (PyBool false) = inr scenario_A
  /\ sandbox_result
       (frame (snd (run_unit_tests_action (runner_returning scenario_A)
                      parser_without_counts local_runner_one_passed
                      (str_of "test_app.py") (str_of "/work")
                      (str_of "test_result") (Some (str_of "setup_result"))
                      (PyStr (str_of "python")) (PyBool false) (PyInt 300)
                      fresh_world)))
     = Bound (SandboxResult.mk 0 (str_of "1 passed") [])
  /\ str_of "1 passed" <> SandboxResult.stdout scenario_A.
Proof.
  split; [|split].
  - reflexivity.
  - vm_compute. reflexivity.
  - vm_compute. discriminate.
Qed.

(** C6, as the code has it.  When the sandbox parameter resolves to a value
    that is true in a condition and is not a string, the action raises
    [ValueError] before anything else happens: no test run, no publication,
    no assignment. *)
Theorem non_string_sandbox_raises
    (SandboxRunner_run :
       str -> str -> str -> list str -> PyValue -> PyValue -> exn + SandboxResult.t)
    (parse_python_unit_test_results : SandboxResult.t -> exn + UnitTestResult.t)
    (run_python_unit_tests : str -> str -> exn + UnitTestResult.t)
    (filename dir property : str) (setup_property : option str)
    (sandbox stream_logs timeout : PyValue) (w : World) :
  truthy sandbox = true ->
  (forall s, sandbox <> PyStr s) ->
  run_unit_tests_action SandboxRunner_run parse_python_unit_test_results
    run_python_unit_tests filename dir property setup_property
    sandbox stream_logs timeout w
  = (Raised (ValueError sandbox_error), w).
Proof.
  intros Ht Hs. unfold run_unit_tests_action. rewrite Ht.
  destruct sandbox as [| b | n | s | items | ty truth]; try reflexivity.
  now destruct (Hs s).
Qed.

Lemma non_string_sandbox_raises_witness :
  run_unit_tests_action (runner_returning scenario_A) parser_without_counts
    local_runner_one_passed (str_of "test_app.py") (str_of "/work")
    (str_of "test_result") (Some (str_of "setup_result"))
    (PyInt 1) (PyBool false) (PyInt 300) fresh_world
  = (Raised (ValueError sandbox_error), fresh_world).
Proof.
  apply non_string_sandbox_raises.
  - reflexivity.
  - intros s. discriminate.
Defined.

(** C6 as stated fails: a sandbox parameter that resolves to the empty list,
    or to the integer 0, is not a string, and no error about the configuration
    is raised; the test file is run locally and its result is published. *)
Lemma falsy_sandbox_runs_locally :
  (forall s, PyList [] <> PyStr s)
  /\ fst (run_unit_tests_action (runner_returning scenario_A)
            parser_without_counts local_runner_one_passed
            (str_of "test_app.py") (str_of "/work")
            (str_of "test_result") (Some (str_of "setup_result"))
            (PyList []) (PyBool false) (PyInt 300) fresh_world)
     <> Raised (ValueError sandbox_error)
  /\ trace (snd (run_unit_tests_action (runner_returning scenario_A)
                   parser_without_counts local_runner_one_passed
                   (str_of "test_app.py") (str_of "/work")
                   (str_of "test_result") (Some (str_of "setup_result"))
                   (PyList []) (PyBool false) (PyInt 300) fresh_world))
     = [LocalRun (str_of "/work") (str_of "test_app.py");
        Push (str_of "test_result") (PubUnitTest one_passed)]
  /\ trace (snd (run_unit_tests_action (runner_returning scenario_A)
                   parser_without_counts local_runner_one_passed
                   (str_of "test_app.py") (str_of "/work")
                   (str_of "test_result") (Some (str_of "setup_result"))
                   (PyInt 0) (PyBool false) (PyInt 300) fresh_world))
     = [LocalRun (str_of "/work") (str_of "test_app.py");
        Push (str_of "test_result") (PubUnitTest one_passed)].
Proof.
  split; [|split; [|split]].
  - intros s. discriminate.
  - vm_compute. discriminate.
  - vm_compute. reflexivity.
  - vm_compute. reflexivity.
Qed.

(* ================================================================== *)
(** * Properties: quitting while the pipeline runs *)
(* ================================================================== *)

Section Lifecycle.

Import FullDisplayApp.

(** The cancellations that can still reach the worker: those it has
    received and the callbacks that have not run yet. *)
Let budget (self : App) : nat :=
  worker_cancel_calls self + (call_later_calls self - callbacks_run self).

Ltac unfold_app :=
  unfold handle, action_quit, _cancel_after_delay, _run_pipeline_ends,
    _cancel_pipeline, _select_tab, console_service_append, set_is_quitting,
    set_worker, exit, cancel; cbn -[Nat.ltb].

Lemma action_quit_when_quitting (self : App) :
  _is_quitting self = true -> action_quit self = self.
Proof. intros H. unfold action_quit. now rewrite H. Qed.

Lemma handle_keeps_quitting (self : App) (i : Input) :
  _is_quitting self = true -> _is_quitting (handle self i) = true.
Proof.
  intros H. destruct self as [ne [w|] q co tab cl cr ex]; cbn in H; subst q;
    destruct i as [| | | final | t]; unfold_app; try reflexivity.
  - destruct (cr <? cl)%nat; [|reflexivity].
    destruct (negb (is_finished w) && is_running w); reflexivity.
  - destruct (state w); reflexivity.
  - destruct (is_finished w); reflexivity.
  - destruct (cr <? cl)%nat; reflexivity.
Qed.

(** Once the application is quitting, nothing it handles adds a notice or
    schedules a cancellation, and the worker is cancelled at most once for
    each callback that runs. *)
Lemma handle_when_quitting (self : App) (i : Input) :
  _is_quitting self = true ->
  console (handle self i) = console self
  /\ call_later_calls (handle self i) = call_later_calls self
  /\ budget (handle self i) <= budget self.
Proof.
  intros H. subst budget. unfold worker_cancel_calls.
  destruct self as [ne [w|] q co tab cl cr ex]; cbn in H; subst q;
    destruct i as [| | | final | t]; unfold_app; try (repeat split; lia).
  - destruct (Nat.ltb_spec cr cl); [|repeat split; cbn; lia].
    destruct (negb (is_finished w) && is_running w); cbn; repeat split; lia.
  - destruct (state w); cbn; repeat split; lia.
  - destruct (is_finished w); cbn; repeat split; lia.
  - destruct (Nat.ltb_spec cr cl); cbn; repeat split; lia.
Qed.

Lemma run_when_quitting (inputs : list Input) (self : App) :
  _is_quitting self = true ->
  console (run self inputs) = console self
  /\ call_later_calls (run self inputs) = call_later_calls self
  /\ budget (run self inputs) <= budget self.
Proof.
  revert self. induction inputs as [|i inputs IH]; intros self H.
  - cbn. repeat split; lia.
  - cbn [run fold_left].
    destruct (handle_when_quitting self i H) as (Hc & Hl & Hb).
    destruct (IH (handle self i) (handle_keeps_quitting self i H))
      as (Hc' & Hl' & Hb').
    unfold run in *. rewrite Hc', Hl', Hc, Hl. repeat split; lia.
Qed.

Lemma handle_untouched (self : App) (i : Input) :
  untouched self -> untouched (handle self i).
Proof.
  unfold untouched, worker_cancel_calls. intros U H.
  destruct (_is_quitting self) eqn:Q.
  - rewrite (handle_keeps_quitting self i Q) in H. discriminate.
  - destruct (U eq_refl) as (Hc & Hl & Hr & Hw). clear U.
    destruct self as [ne [w|] q co tab cl cr ex]; cbn in *; subst;
      destruct i as [| | | final | t]; revert H; unfold_app; intros H;
      try discriminate; auto.
    + destruct (negb (is_finished w)); cbn in H; discriminate.
    + destruct (state w); cbn; auto.
    + destruct (is_finished w); cbn; auto.
      destruct ne; cbn; auto.
Qed.

Lemma run_untouched (inputs : list Input) (self : App) :
  untouched self -> untouched (run self inputs).
Proof.
  revert self. induction inputs as [|i inputs IH]; intros self U; [exact U|].
  cbn [run fold_left]. apply (IH (handle self i)), handle_untouched, U.
Qed.

Lemma mounted_untouched (no_exit : bool) (tab : str) :
  untouched (mounted no_exit tab).
Proof. intros _. cbn. auto. Qed.

(** The first quit request while the pipeline runs. *)
Lemma first_quit (self : App) :
  pipeline_running self -> _is_quitting self = false ->
  _is_quitting (action_quit self) = true
  /\ console (action_quit self) = console self ++ [CLEANUP_NOTICE]
  /\ call_later_calls (action_quit self) = S (call_later_calls self)
  /\ callbacks_run (action_quit self) = callbacks_run self
  /\ worker_cancel_calls (action_quit self) = worker_cancel_calls self
  /\ exit_calls (action_quit self) = exit_calls self.
Proof.
  intros (w & Hw & Hf) Hq. unfold worker_cancel_calls.
  destruct self as [ne w' q co tab cl cr ex]; cbn in Hw, Hq; subst.
  unfold_app. rewrite Hf. cbn. auto 7.
Qed.

(** C8.  In a session whose pipeline task is running and where nobody has
    asked to quit yet, a quit request followed by anything else, further
    quit requests included, leaves exactly one cleanup notice on the
    console and exactly one scheduled cancellation, which cancels the
    worker at most once; a quit request that follows the first one changes
    nothing. *)
Theorem quit_requests_cancel_once
    (no_exit : bool) (tab : str) (before after : list Input) :
  pipeline_running (run (mounted no_exit tab) before) ->
  _is_quitting (run (mounted no_exit tab) before) = false ->
  action_quit (action_quit (run (mounted no_exit tab) before))
    = action_quit (run (mounted no_exit tab) before)
  /\ cleanup_notices (run (mounted no_exit tab) (before ++ QuitRequest :: after)) = 1
  /\ call_later_calls (run (mounted no_exit tab) (before ++ QuitRequest :: after)) = 1
  /\ worker_cancel_calls (run (mounted no_exit tab) (before ++ QuitRequest :: after)) <= 1
  /\ (forall later,
         run (run (mounted no_exit tab) (before ++ [QuitRequest])) (QuitRequest :: later)
         = run (run (mounted no_exit tab) (before ++ [QuitRequest])) later).
Proof.
  intros Hrun Hq.
  set (app := run (mounted no_exit tab) before) in *.
  destruct (run_untouched before _ (mounted_untouched no_exit tab) Hq)
    as (Hc & Hl & Hr & Hw). fold app in Hc, Hl, Hr, Hw.
  destruct (first_quit app Hrun Hq) as (Q & Qc & Ql & Qr & Qw & _).
  assert (Hsplit : forall l, run (mounted no_exit tab) (before ++ QuitRequest :: l)
                             = run (action_quit app) l).
  { intros l. unfold run. rewrite fold_left_app. reflexivity. }
  destruct (run_when_quitting after (action_quit app) Q) as (Rc & Rl & Rb).
  split; [now apply action_quit_when_quitting|].
  rewrite !Hsplit. split; [|split; [|split]].
  - unfold cleanup_notices. rewrite Rc, Qc, Hc. cbn.
    destruct (list_eq_dec ascii_dec CLEANUP_NOTICE CLEANUP_NOTICE); congruence.
  - now rewrite Rl, Ql, Hl.
  - subst budget. cbn beta in Rb. rewrite Ql, Qr, Qw, Hl, Hr, Hw in Rb. lia.
  - intros later. cbn [run fold_left handle].
    now rewrite (action_quit_when_quitting _ Q).
Qed.

Lemma quit_requests_cancel_once_witness :
  cleanup_notices
    (run (mounted false (str_of "tab_console"))
       ([WorkerStarts]
          ++ QuitRequest :: [QuitRequest; DelayElapsed; QuitRequest;
                             PipelineEnds SUCCESS])) = 1
  /\ call_later_calls
       (run (mounted false (str_of "tab_console"))
          ([WorkerStarts]
             ++ QuitRequest :: [QuitRequest; DelayElapsed; QuitRequest;
                                PipelineEnds SUCCESS])) = 1.
Proof.
  destruct (quit_requests_cancel_once false (str_of "tab_console")
              [WorkerStarts]
              [QuitRequest; DelayElapsed; QuitRequest; PipelineEnds SUCCESS])
    as (_ & Hn & Hl & _).
  - exists (mkWorker RUNNING 0). split; reflexivity.
  - reflexivity.
  - split; [exact Hn | exact Hl].
Defined.

End Lifecycle.

(* ================================================================== *)
(** * Further properties: the splitter *)
(* ================================================================== *)

Lemma search_none_without_marker (s : str) :
  (forall j, ~ end_marker_at s j) -> SETUP_END_PATTERN_search s = None.
Proof.
  intros Hn. destruct (SETUP_END_PATTERN_search s) as [m|] eqn:S; [|reflexivity].
  exfalso. destruct (search_Some _ _ S) as (Hd & (pre & post & E & Hs & _) & _).
  apply (Hn (length pre)). exists (m_group1 m). split; [exact Hd|].
  now exists pre, post.
Qed.

Lemma trimmed_nil : trimmed [].
Proof.
  split; intros u E; [discriminate|]. destruct u; discriminate.
Qed.

Lemma lstrip_fixed (t : str) :
  (forall u, t <> ascii_of_nat 10 :: u) -> lstrip t NL = t.
Proof.
  intros H. destruct t as [|c t]; [reflexivity|]. cbn [lstrip].
  destruct (in_chars NL c) eqn:C; [|reflexivity].
  apply in_chars_NL in C. subst c. now destruct (H t).
Qed.

(** Trimming a trimmed text changes nothing. *)
Lemma strip_fixed (t : str) : trimmed t -> strip t NL = t.
Proof.
  intros [Hh Hl]. unfold strip, rstrip. rewrite (lstrip_fixed t Hh).
  rewrite lstrip_fixed; [apply rev_involutive|].
  intros u E. apply (Hl (rev u)).
  rewrite <- (rev_involutive t), E. reflexivity.
Qed.

(** X1.  The setup code is absent exactly when the stream has no start
    marker, and then the whole stream, trimmed, is test content and the setup
    content is empty. *)
Theorem split_stream_without_start (output : str) :
  (snd (_split_stream output) = None <-> ~ occurs SETUP_START output)
  /\ (~ occurs SETUP_START output ->
      _split_stream output = (strip output NL, [], None)).
Proof.
  split; [|apply split_stream_no_start]. split.
  - intros H. pose proof (split_stream_cases output) as C.
    remember (_split_stream output) as r eqn:Er.
    destruct C as [Hn | pre rest Et Hs Hn | pre mid ds post Et Hs Hd He];
      [exact Hn | discriminate | discriminate].
  - intros Hn. now rewrite (split_stream_no_start _ Hn).
Qed.

(** X2.  With a start marker and no end marker after it, the test content is
    empty, the setup content is all the text after the start marker, trimmed,
    and the setup code is -1. *)
Theorem split_stream_incomplete_setup (pre rest : str) :
  first_start (pre ++ SETUP_START ++ rest) pre ->
  (forall j, ~ end_marker_at rest j) ->
  _split_stream (pre ++ SETUP_START ++ rest) = ([], strip rest NL, Some (-1)%Z).
Proof.
  intros Hs Hn. rewrite (split_stream_at_start pre rest Hs).
  unfold split_after_start. now rewrite (search_none_without_marker rest Hn).
Qed.

Lemma split_stream_incomplete_setup_witness :
  _split_stream (str_of "boot" ++ SETUP_START ++ NL ++ str_of "installing deps...")
  = ([], str_of "installing deps...", Some (-1)%Z).
Proof.
  apply (split_stream_incomplete_setup (str_of "boot")
           (NL ++ str_of "installing deps...")).
  - apply first_start_by_find. vm_compute. reflexivity.
  - apply search_None. vm_compute. reflexivity.
Defined.

(** X3.  A setup code that is present is -1 or a non-negative integer.  It is
    -1 only when no end marker follows the first start marker, and the test
    content is then empty; otherwise it is the integer written in the first
    end marker after the first start marker. *)
Theorem split_stream_code_classes (output : str) (c : Z) :
  snd (_split_stream output) = Some c ->
  (c = (-1)%Z
   /\ fst (fst (_split_stream output)) = []
   /\ exists pre rest,
        output = pre ++ SETUP_START ++ rest
        /\ first_start output pre
        /\ forall j, ~ end_marker_at rest j)
  \/ ((0 <= c)%Z
      /\ exists pre mid ds post,
           output = pre ++ SETUP_START ++ mid ++ end_marker ds ++ post
           /\ first_start output pre
           /\ digits ds
           /\ first_end (mid ++ end_marker ds ++ post) mid
           /\ c = int ds).
Proof.
  pose proof (split_stream_cases output) as C.
  remember (_split_stream output) as r eqn:Er.
  destruct C as [Hn | pre rest Et Hs Hn | pre mid ds post Et Hs Hd He];
    cbn [fst snd]; intros [= <-].
  - left. split; [reflexivity|]. split; [reflexivity|]. now exists pre, rest.
  - right. split; [apply int_nonneg|]. now exists pre, mid, ds, post.
Qed.

Lemma split_stream_code_classes_witness :
  (0 <= 0)%Z
  /\ exists pre mid ds post,
       SandboxResult.stdout scenario_A
         = pre ++ SETUP_START ++ mid ++ end_marker ds ++ post
       /\ 0%Z = int ds.
Proof.
  destruct (split_stream_code_classes (SandboxResult.stdout scenario_A) 0%Z)
    as [(H & _) | (H & pre & mid & ds & post & E & _ & _ & _ & Ec)].
  - vm_compute. reflexivity.
  - discriminate.
  - split; [exact H|]. now exists pre, mid, ds, post.
Defined.

(** X4.  Whatever the stream, neither returned content begins or ends with a
    newline. *)
Theorem split_stream_contents_trimmed (output : str) :
  trimmed (fst (fst (_split_stream output)))
  /\ trimmed (snd (fst (_split_stream output))).
Proof.
  pose proof (split_stream_cases output) as C.
  destruct C; cbn [fst snd]; split;
    try apply strip_trimmed; apply trimmed_nil.
Qed.

(** X5.  The two returned contents are never longer than the stream; when the
    stream has a start marker they fit in what is left without that
    marker. *)
Theorem split_stream_lengths (output : str) :
  length (fst (fst (_split_stream output)))
    + length (snd (fst (_split_stream output))) <= length output
  /\ (occurs SETUP_START output ->
      length (fst (fst (_split_stream output)))
        + length (snd (fst (_split_stream output)))
        + length SETUP_START <= length output).
Proof.
  pose proof (split_stream_cases output) as C.
  destruct C as [Hn | pre rest Et Hs Hn | pre mid ds post Et Hs Hd He];
    cbn [fst snd].
  - split; [|intros H; now destruct (Hn H)].
    pose proof (strip_length output). simpl. lia.
  - pose proof (strip_length rest) as L. rewrite Et, !length_app.
    split; [|intros _]; simpl in *; lia.
  - pose proof (strip_length mid) as Lm. pose proof (strip_length post) as Lp.
    rewrite Et, !length_app. split; [|intros _]; simpl in *; lia.
Qed.

(** X6.  The test content of a stream without a start marker splits into
    itself: feeding it to the splitter again changes nothing. *)
Theorem split_stream_twice (output : str) :
  ~ occurs SETUP_START output ->
  _split_stream (fst (fst (_split_stream output))) = _split_stream output.
Proof.
  intros Hn. rewrite (split_stream_no_start _ Hn). cbn [fst].
  rewrite split_stream_no_start.
  - now rewrite (strip_fixed _ (strip_trimmed output)).
  - intros H. apply Hn. now apply occurs_strip.
Qed.

Lemma split_stream_twice_witness :
  _split_stream (str_of "3 passed, 1 failed")
  = _split_stream (NL ++ str_of "3 passed, 1 failed" ++ NL).
Proof.
  rewrite <- (split_stream_twice (NL ++ str_of "3 passed, 1 failed" ++ NL)).
  - vm_compute. reflexivity.
  - apply no_occurrence_by_find. vm_compute. reflexivity.
Defined.

(* ================================================================== *)
(** * Further properties: the reconciler *)
(* ================================================================== *)

Lemma str_eqb_nil_false (s : str) : s <> [] -> str_eqb s [] = false.
Proof. apply str_eqb_neq. Qed.

Lemma str_eqb_true (s t : str) : str_eqb s t = true -> s = t.
Proof. unfold str_eqb. destruct (list_eq_dec ascii_dec s t); congruence. Qed.

Lemma opt_Z_eqb_nonneg (c : Z) : (0 <= c)%Z -> opt_Z_eqb (Some c) (-1) = false.
Proof. intros H. cbn. apply Z.eqb_neq. lia. Qed.

(** A setup code of the splitter is -1 or is not negative. *)
Lemma split_stream_code_range (output : str) (c : Z) :
  snd (_split_stream output) = Some c -> c = (-1)%Z \/ (0 <= c)%Z.
Proof.
  pose proof (split_stream_cases output) as C.
  remember (_split_stream output) as r eqn:Er.
  destruct C; cbn [snd]; intros [= <-]; [now left|].
  right. apply int_nonneg.
Qed.

Lemma lstrip_newlines (s : str) : newlines s -> lstrip s NL = [].
Proof.
  induction 1 as [|c s Hc _ IH]; [reflexivity|]. subst c. exact IH.
Qed.

Lemma strip_newlines (s : str) : newlines s -> strip s NL = [].
Proof. intros H. unfold strip. now rewrite (lstrip_newlines s H). Qed.

Lemma newlines_no_start (s : str) : newlines s -> ~ occurs SETUP_START s.
Proof.
  intros H (i & pre & post & E & _). unfold newlines in H. rewrite E in H.
  apply Forall_app in H. destruct H as [_ H]. apply Forall_app in H.
  destruct H as [H _]. apply Forall_inv in H. discriminate.
Qed.

(** X7.  The stdout code wins.  When stdout carries a start marker and an end
    marker with at most 4300 digits [ds] and some test content after it, and
    the split of stderr does not raise, the reconciling call returns, the
    setup returncode is the integer of [ds] and the test returncode is the
    exit code, whatever else stderr holds: a setup code of stderr, the
    sentinel included, is not looked at. *)
Theorem parse_stdout_code_wins
    (exit_code : Z) (pre mid ds post stderr : str) :
  first_start (pre ++ SETUP_START ++ mid ++ end_marker ds ++ post) pre ->
  digits ds ->
  first_end (mid ++ end_marker ds ++ post) mid ->
  strip post NL <> [] ->
  int_raises ds = false ->
  split_stream_raises stderr = false ->
  exists test setup,
    parse_sandbox_result_outcome
      (SandboxResult.mk exit_code
         (pre ++ SETUP_START ++ mid ++ end_marker ds ++ post) stderr)
    = inr (test, setup)
    /\ CommandResult.returncode setup = Some (int ds)
    /\ CommandResult.returncode test = Some exit_code.
Proof.
  intros Hs Hd He Hp Hi Hr.
  rewrite parse_outcome_returns;
    cbn [SandboxResult.stdout SandboxResult.stderr]; [| |exact Hr].
  - unfold _parse_sandbox_result.
    cbn [SandboxResult.stdout SandboxResult.stderr SandboxResult.exit_code].
    rewrite (split_stream_at_start pre _ Hs),
      (split_after_start_both _ _ _ Hd He).
    destruct (_split_stream stderr) as [[t2 s2] c2].
    rewrite (opt_Z_eqb_nonneg _ (int_nonneg ds)), (str_eqb_nil_false _ Hp).
    eexists. eexists. split; [reflexivity|]. split; reflexivity.
  - unfold split_stream_raises.
    now rewrite (int_argument_both pre mid ds post Hs Hd He).
Qed.

Lemma parse_stdout_code_wins_witness :
  exists test setup,
    parse_sandbox_result_outcome
      (SandboxResult.mk 1
         (SETUP_START ++ NL ++ end_marker (str_of "0") ++ NL
            ++ str_of "1 failed")
         (SETUP_START ++ str_of "warning"))
    = inr (test, setup)
    /\ CommandResult.returncode setup = Some 0%Z
    /\ CommandResult.returncode test = Some 1%Z.
Proof.
  apply (parse_stdout_code_wins 1 [] NL (str_of "0")
           (NL ++ str_of "1 failed") (SETUP_START ++ str_of "warning")).
  - apply first_start_nil.
  - split; [discriminate | reflexivity].
  - eapply first_end_by_search; vm_compute; reflexivity.
  - vm_compute. discriminate.
  - reflexivity.
  - vm_compute. reflexivity.
Defined.

(** X8.  The returncodes of the two results have one of two shapes: either
    the test returncode is absent and the setup returncode is the exit code,
    or the test returncode is the exit code and the setup returncode is
    absent or a non-negative integer read from a marker.  The sentinel -1 of
    the splitter never reaches a result. *)
Theorem parse_sandbox_result_returncodes (sb : SandboxResult.t) :
  (CommandResult.returncode (fst (_parse_sandbox_result sb)) = None
   /\ CommandResult.returncode (snd (_parse_sandbox_result sb))
      = Some (SandboxResult.exit_code sb))
  \/ (CommandResult.returncode (fst (_parse_sandbox_result sb))
      = Some (SandboxResult.exit_code sb)
      /\ (CommandResult.returncode (snd (_parse_sandbox_result sb)) = None
          \/ exists c,
               CommandResult.returncode (snd (_parse_sandbox_result sb)) = Some c
               /\ (0 <= c)%Z)).
Proof.
  unfold _parse_sandbox_result.
  pose proof (split_stream_code_range (SandboxResult.stdout sb)) as R1.
  pose proof (split_stream_code_range (SandboxResult.stderr sb)) as R2.
  destruct (_split_stream (SandboxResult.stdout sb)) as [[t1 s1] c1].
  destruct (_split_stream (SandboxResult.stderr sb)) as [[t2 s2] c2].
  cbn [snd] in R1, R2.
  set (code := match c1 with Some c => Some c | None => c2 end).
  destruct (opt_Z_eqb code (-1) || (str_eqb t1 [] && str_eqb t2 [])) eqn:P;
    cbn [fst snd CommandResult.returncode]; [now left|].
  right. split; [reflexivity|].
  apply orb_false_iff in P. destruct P as [P _].
  assert (Hc : forall c, code = Some c -> c = (-1)%Z \/ (0 <= c)%Z).
  { subst code. destruct c1 as [c1|]; intros c E.
    - apply R1. exact E.
    - apply R2. exact E. }
  destruct code as [c|]; [|now left]. right. exists c. split; [reflexivity|].
  destruct (Hc c eq_refl) as [-> | H]; [|exact H].
  cbn in P. discriminate.
Qed.

(** X9.  The test result is a success only if the exit code is zero and some
    test content was found on stdout or stderr: a run without test output is
    never reported as passed tests. *)
Theorem test_success_needs_output (sb : SandboxResult.t) :
  CommandResult.success (fst (_parse_sandbox_result sb)) = true ->
  SandboxResult.exit_code sb = 0%Z
  /\ (CommandResult.stdout (fst (_parse_sandbox_result sb)) <> []
      \/ CommandResult.stderr (fst (_parse_sandbox_result sb)) <> []).
Proof.
  unfold _parse_sandbox_result.
  destruct (_split_stream (SandboxResult.stdout sb)) as [[t1 s1] c1].
  destruct (_split_stream (SandboxResult.stderr sb)) as [[t2 s2] c2].
  set (code := match c1 with Some c => Some c | None => c2 end).
  destruct (opt_Z_eqb code (-1) || (str_eqb t1 [] && str_eqb t2 [])) eqn:P;
    unfold CommandResult.success;
    cbn [fst snd CommandResult.returncode CommandResult.stdout CommandResult.stderr];
    [discriminate|].
  intros H. apply Z.eqb_eq in H. split; [exact H|].
  apply orb_false_iff in P. destruct P as [_ P].
  apply andb_false_iff in P. destruct P as [P | P]; [left | right];
    intros ->; now rewrite str_eqb_refl in P.
Qed.

Lemma test_success_needs_output_witness :
  SandboxResult.exit_code scenario_A = 0%Z
  /\ (CommandResult.stdout (fst (_parse_sandbox_result scenario_A)) <> []
      \/ CommandResult.stderr (fst (_parse_sandbox_result scenario_A)) <> []).
Proof.
  apply test_success_needs_output. vm_compute. reflexivity.
Defined.

(** X10.  Without a start marker on either stream and with some output left
    after trimming, all the output is the test result, with the exit code as
    returncode, and the setup result is empty with no returncode. *)
Theorem parse_without_markers (sb : SandboxResult.t) :
  ~ occurs SETUP_START (SandboxResult.stdout sb) ->
  ~ occurs SETUP_START (SandboxResult.stderr sb) ->
  strip (SandboxResult.stdout sb) NL <> []
  \/ strip (SandboxResult.stderr sb) NL <> [] ->
  _parse_sandbox_result sb
  = (CommandResult.mk [] (Some (SandboxResult.exit_code sb))
       (strip (SandboxResult.stdout sb) NL) (strip (SandboxResult.stderr sb) NL),
     CommandResult.mk [] None [] []).
Proof.
  intros H1 H2 Ho. unfold _parse_sandbox_result.
  rewrite (split_stream_no_start _ H1), (split_stream_no_start _ H2).
  cbn [opt_Z_eqb orb].
  destruct Ho as [Ho | Ho]; rewrite (str_eqb_nil_false _ Ho);
    [|rewrite andb_false_r]; reflexivity.
Qed.

Lemma parse_without_markers_witness :
  _parse_sandbox_result scenario_C
  = (CommandResult.mk [] (Some 1%Z) (str_of "3 passed, 1 failed") [],
     CommandResult.mk [] None [] []).
Proof.
  apply (parse_without_markers scenario_C).
  - apply no_occurrence_by_find. vm_compute. reflexivity.
  - apply no_occurrence_by_find. vm_compute. reflexivity.
  - left. vm_compute. discriminate.
Defined.

(** X11.  A run that printed nothing but newlines is reported as a setup
    result that carries the exit code and a test result without returncode,
    both empty, also when the exit code is 0. *)
Theorem parse_silent_run (sb : SandboxResult.t) :
  newlines (SandboxResult.stdout sb) ->
  newlines (SandboxResult.stderr sb) ->
  _parse_sandbox_result sb
  = (CommandResult.mk [] None [] [],
     CommandResult.mk [] (Some (SandboxResult.exit_code sb)) [] []).
Proof.
  intros H1 H2. unfold _parse_sandbox_result.
  rewrite (split_stream_no_start _ (newlines_no_start _ H1)).
  rewrite (split_stream_no_start _ (newlines_no_start _ H2)).
  rewrite (strip_newlines _ H1), (strip_newlines _ H2). reflexivity.
Qed.

Lemma parse_silent_run_witness :
  _parse_sandbox_result (SandboxResult.mk 0 (NL ++ NL) [])
  = (CommandResult.mk [] None [] [], CommandResult.mk [] (Some 0%Z) [] []).
Proof.
  apply (parse_silent_run (SandboxResult.mk 0 (NL ++ NL) [])).
  - repeat constructor.
  - constructor.
Defined.

(* ================================================================== *)
(** * Further properties: the unit-test action *)
(* ================================================================== *)

Section ActionExtras.

Variable SandboxRunner_run :
  str -> str -> str -> list str -> PyValue -> PyValue -> exn + SandboxResult.t.
Variable parse_python_unit_test_results : SandboxResult.t -> exn + UnitTestResult.t.
Variable run_python_unit_tests : str -> str -> exn + UnitTestResult.t.

Variables (filename dir property : str) (setup_property : option str).
Variables (stream_logs timeout : PyValue).

Let action := run_unit_tests_action SandboxRunner_run
                parse_python_unit_test_results run_python_unit_tests
                filename dir property setup_property.

(** The action on the local path, whatever the local runner does. *)
Lemma local_run_outcome (sandbox : PyValue) :
  truthy sandbox = false ->
  action sandbox stream_logs timeout fresh_world
  = match run_python_unit_tests dir filename with
    | inl e =>
        (Raised e, mkWorld (mkFrame Unbound Unbound Unbound)
                     [LocalRun dir filename])
    | inr r =>
        (Raised (UnboundLocalError "setup_result"),
         mkWorld (mkFrame Unbound Unbound (Bound r))
           [LocalRun dir filename; Push property (PubUnitTest r)])
    end.
Proof.
  intros Hs. subst action. unfold run_unit_tests_action. rewrite Hs.
  unfold bind at 1 2 3. cbn [emit fresh_world frame trace app].
  destruct (run_python_unit_tests dir filename); reflexivity.
Qed.

(** The action on the sandbox path when the runner raises. *)
Lemma sandboxed_run_runner_raises (name : str) (e : exn) :
  name <> [] ->
  SandboxRunner_run name filename dir (pytest_command filename)
    timeout stream_logs = inl e ->
  action (PyStr name) stream_logs timeout fresh_world
  = (Raised e,
     mkWorld (mkFrame Unbound Unbound Unbound)
       [SandboxRun name filename dir (pytest_command filename)
          timeout stream_logs]).
Proof.
  intros Hname Hrun. subst action. unfold run_unit_tests_action.
  cbn [truthy]. rewrite (str_eqb_neq _ _ Hname). cbn [negb].
  fold (pytest_command filename).
  unfold bind at 1 2 3. cbn [ret emit fresh_world frame trace app].
  unfold bind at 1 2. rewrite Hrun. reflexivity.
Qed.

(** The action on the sandbox path when the report parser raises. *)
Lemma sandboxed_run_parser_raises (name : str) (sb : SandboxResult.t) (c : Z)
    (e : exn) :
  name <> [] ->
  SandboxRunner_run name filename dir (pytest_command filename)
    timeout stream_logs = inr sb ->
  parse_sandbox_result_outcome sb = inr (_parse_sandbox_result sb) ->
  CommandResult.returncode (fst (_parse_sandbox_result sb)) = Some c ->
  parse_python_unit_test_results
    (SandboxResult.mk (SandboxResult.exit_code sb)
       (CommandResult.stdout (fst (_parse_sandbox_result sb)))
       (CommandResult.stderr (fst (_parse_sandbox_result sb)))) = inl e ->
  action (PyStr name) stream_logs timeout fresh_world
  = (Raised e,
     mkWorld
       (mkFrame
          (Bound (SandboxResult.mk (SandboxResult.exit_code sb)
                    (CommandResult.stdout (fst (_parse_sandbox_result sb)))
                    (CommandResult.stderr (fst (_parse_sandbox_result sb)))))
          (Bound (Some (snd (_parse_sandbox_result sb)))) Unbound)
       [SandboxRun name filename dir (pytest_command filename)
          timeout stream_logs;
        ParseReport
          (SandboxResult.mk (SandboxResult.exit_code sb)
             (CommandResult.stdout (fst (_parse_sandbox_result sb)))
             (CommandResult.stderr (fst (_parse_sandbox_result sb))))]).
Proof.
  intros Hname Hrun Hsplit Hcode Hparse. subst action.
  unfold run_unit_tests_action.
  cbn [truthy]. rewrite (str_eqb_neq _ _ Hname). cbn [negb].
  fold (pytest_command filename).
  unfold bind at 1 2 3. cbn [ret emit fresh_world frame trace app].
  unfold bind at 1 2. rewrite Hrun.
  cbn -[parse_sandbox_result_outcome _parse_sandbox_result]. rewrite Hsplit.
  destruct (_parse_sandbox_result sb) as [test setup] eqn:P.
  cbn [fst snd] in Hcode, Hparse |- *. cbn. rewrite Hcode. cbn.
  rewrite Hparse. reflexivity.
Qed.

(** The action when the sandbox parameter is true in a condition and is not
    a string. *)
Lemma truthy_non_string_outcome (sandbox : PyValue) :
  truthy sandbox = true ->
  (forall name, sandbox <> PyStr name) ->
  action sandbox stream_logs timeout fresh_world
  = (Raised (ValueError sandbox_error), fresh_world).
Proof.
  intros Ht Hs. subst action. unfold run_unit_tests_action. rewrite Ht.
  destruct sandbox as [| b | n | s | items | ty truth]; try reflexivity.
  now destruct (Hs s).
Qed.

Lemma published_setup_push (setup : CommandResult.t) :
  published (setup_push setup_property setup)
  = if truthy_key setup_property
    then match setup_property with
         | Some key => [(key, PubCommand setup)]
         | None => []
         end
    else [].
Proof.
  unfold setup_push, truthy_key. destruct setup_property as [key|]; [|reflexivity].
  destruct (str_eqb key []); reflexivity.
Qed.

Lemma executions_setup_push (setup : CommandResult.t) :
  executions (setup_push setup_property setup) = [].
Proof.
  unfold setup_push. destruct setup_property as [key|]; [|reflexivity].
  destruct (str_eqb key []); reflexivity.
Qed.

Lemma parser_calls_setup_push (setup : CommandResult.t) :
  parser_calls (setup_push setup_property setup) = [].
Proof.
  unfold setup_push. destruct setup_property as [key|]; [|reflexivity].
  destruct (str_eqb key []); reflexivity.
Qed.

(** A string that is true in a condition is not empty. *)
Lemma truthy_str (name : str) : truthy (PyStr name) = true -> name <> [].
Proof.
  cbn. intros H ->. now rewrite str_eqb_refl in H.
Qed.

(** X12.  With string keys and an [item.push] that returns, an action that
    raises has published nothing, with one exception: on the local path the
    test result is published before the read of [setup_result] raises.  This
    covers the ValueError for a sandbox that is not a string, an error of the
    sandbox runner, the ValueError of a split, an error of the report parser
    and an error of the local runner. *)
Theorem raised_action_publishes_nothing
    (sandbox : PyValue) (e : exn) (w : World) :
  action sandbox stream_logs timeout fresh_world = (Raised e, w) ->
  published (trace w) = []
  \/ (truthy sandbox = false
      /\ e = UnboundLocalError "setup_result"
      /\ exists r,
           run_python_unit_tests dir filename = inr r
           /\ published (trace w) = [(property, PubUnitTest r)]).
Proof.
  destruct (truthy sandbox) eqn:Ht.
  - destruct sandbox as [| b | n | name | items | ty truth];
      try (rewrite truthy_non_string_outcome by (auto; discriminate);
           intros [= <- <-]; now left).
    pose proof (truthy_str name Ht) as Hname.
    destruct (SandboxRunner_run name filename dir (pytest_command filename)
                timeout stream_logs) as [e'|sb] eqn:Hrun.
    + rewrite (sandboxed_run_runner_raises name e' Hname Hrun).
      intros [= <- <-]. now left.
    + destruct (parse_sandbox_result_outcome sb) as [e'|results] eqn:Hsplit.
      { subst action.
        rewrite (sandboxed_run_split_raises _ _ _ _ _ _ _ _ _ _ sb e' Hname Hrun Hsplit).
        intros [= <- <-]. now left. }
      assert (Hres : results = _parse_sandbox_result sb).
      { unfold parse_sandbox_result_outcome in Hsplit.
        destruct (split_stream_outcome (SandboxResult.stdout sb)); [discriminate|].
        destruct (split_stream_outcome (SandboxResult.stderr sb)); [discriminate|].
        now injection Hsplit as <-. }
      subst results.
      destruct (CommandResult.returncode (fst (_parse_sandbox_result sb)))
        as [c|] eqn:Hc.
      * destruct (parse_python_unit_test_results
                    (SandboxResult.mk (SandboxResult.exit_code sb)
                       (CommandResult.stdout (fst (_parse_sandbox_result sb)))
                       (CommandResult.stderr (fst (_parse_sandbox_result sb)))))
          as [e'|parsed] eqn:Hp.
        -- rewrite (sandboxed_run_parser_raises name sb c e' Hname Hrun Hsplit Hc Hp).
           intros [= <- <-]. now left.
        -- subst action.
           rewrite (sandboxed_run_tests_present _ _ _ _ _ _ _ _ _ _ sb c parsed
                      Hname Hrun Hsplit Hc Hp).
           discriminate.
      * subst action.
        rewrite (sandboxed_run_tests_absent _ _ _ _ _ _ _ _ _ _ sb Hname Hrun
                   Hsplit Hc).
        discriminate.
  - rewrite (local_run_outcome sandbox Ht).
    destruct (run_python_unit_tests dir filename) as [e'|r] eqn:Hl;
      intros [= <- <-]; [now left|].
    right. split; [reflexivity|]. split; [reflexivity|]. now exists r.
Qed.

(** X13.  An invocation makes at most one test run, whatever the
    collaborators and the splits return or raise.  With a sandbox value that
    is false in a condition it is the local run of the file, and neither the
    sandbox runner nor the report parser is called; with a non-empty sandbox
    name it is one call of the sandbox runner with the single command
    [python -m pytest -v '<filename>'] and the resolved file, directory,
    timeout and streaming flag, and never a local run; with a value that is
    true in a condition and not a string there is no test run and no other
    call. *)
Theorem test_runs_of_an_invocation (sandbox : PyValue) :
  (truthy sandbox = false ->
   executions (trace (snd (action sandbox stream_logs timeout fresh_world)))
   = [LocalRun dir filename]
   /\ parser_calls (trace (snd (action sandbox stream_logs timeout fresh_world)))
      = [])
  /\ (forall name,
        sandbox = PyStr name -> name <> [] ->
        executions (trace (snd (action sandbox stream_logs timeout fresh_world)))
        = [SandboxRun name filename dir (pytest_command filename)
             timeout stream_logs])
  /\ (truthy sandbox = true ->
      (forall name, sandbox <> PyStr name) ->
      trace (snd (action sandbox stream_logs timeout fresh_world)) = []).
Proof.
  split; [|split].
  - intros Ht. rewrite (local_run_outcome sandbox Ht).
    destruct (run_python_unit_tests dir filename); split; reflexivity.
  - intros name -> Hname.
    destruct (SandboxRunner_run name filename dir (pytest_command filename)
                timeout stream_logs) as [e'|sb] eqn:Hrun.
    + now rewrite (sandboxed_run_runner_raises name e' Hname Hrun).
    + destruct (parse_sandbox_result_outcome sb) as [e'|results] eqn:Hsplit.
      { subst action.
        now rewrite (sandboxed_run_split_raises _ _ _ _ _ _ _ _ _ _ sb e'
                       Hname Hrun Hsplit). }
      assert (Hres : results = _parse_sandbox_result sb).
      { unfold parse_sandbox_result_outcome in Hsplit.
        destruct (split_stream_outcome (SandboxResult.stdout sb)); [discriminate|].
        destruct (split_stream_outcome (SandboxResult.stderr sb)); [discriminate|].
        now injection Hsplit as <-. }
      subst results.
      destruct (CommandResult.returncode (fst (_parse_sandbox_result sb)))
        as [c|] eqn:Hc.
      * destruct (parse_python_unit_test_results
                    (SandboxResult.mk (SandboxResult.exit_code sb)
                       (CommandResult.stdout (fst (_parse_sandbox_result sb)))
                       (CommandResult.stderr (fst (_parse_sandbox_result sb)))))
          as [e'|parsed] eqn:Hp.
        -- now rewrite (sandboxed_run_parser_raises name sb c e' Hname Hrun
                          Hsplit Hc Hp).
        -- subst action.
           rewrite (sandboxed_run_tests_present _ _ _ _ _ _ _ _ _ _ sb c parsed
                      Hname Hrun Hsplit Hc Hp).
           cbn [snd trace]. unfold executions. rewrite filter_app.
           fold (executions (setup_push setup_property
                               (snd (_parse_sandbox_result sb)))).
           now rewrite executions_setup_push.
      * subst action.
        rewrite (sandboxed_run_tests_absent _ _ _ _ _ _ _ _ _ _ sb Hname Hrun
                   Hsplit Hc).
        cbn [snd trace]. unfold executions. rewrite filter_app.
        fold (executions (setup_push setup_property
                            (snd (_parse_sandbox_result sb)))).
        now rewrite executions_setup_push.
  - intros Ht Hs. now rewrite (truthy_non_string_outcome sandbox Ht Hs).
Qed.

(** X14.  With a setup-result key that is [None] or empty, a sandboxed
    invocation in which the sandbox runner returns, both streams are split
    without a ValueError and the report parser, if it is called, returns,
    returns and publishes the test result only; the command of that result
    is the command that was given to the sandbox. *)
Theorem unset_setup_key_publishes_test_only
    (name : str) (sb : SandboxResult.t) :
  truthy_key setup_property = false ->
  name <> [] ->
  SandboxRunner_run name filename dir (pytest_command filename)
    timeout stream_logs = inr sb ->
  splits_return sb ->
  parser_returns parse_python_unit_test_results sb ->
  exists w r,
    action (PyStr name) stream_logs timeout fresh_world = (Returned tt, w)
    /\ published (trace w) = [(property, PubUnitTest r)]
    /\ UnitTestResult.command r = pytest_command filename.
Proof.
  intros Hkey Hname Hrun [Hs1 Hs2] Hparse.
  pose proof (parse_outcome_returns sb Hs1 Hs2) as Hsplit.
  destruct (CommandResult.returncode (fst (_parse_sandbox_result sb)))
    as [c|] eqn:Hc.
  - destruct Hparse as [parsed Hp]; [rewrite Hc; discriminate|].
    unfold parser_argument in Hp.
    eexists. eexists. split; [|split].
    + subst action.
      apply (sandboxed_run_tests_present _ _ _ _ _ _ _ _ _ _ sb c parsed
               Hname Hrun Hsplit Hc Hp).
    + cbn [trace]. unfold published. rewrite flat_map_app.
      fold (published (setup_push setup_property (snd (_parse_sandbox_result sb)))).
      rewrite published_setup_push, Hkey. reflexivity.
    + reflexivity.
  - eexists. eexists. split; [|split].
    + subst action.
      apply (sandboxed_run_tests_absent _ _ _ _ _ _ _ _ _ _ sb Hname Hrun
               Hsplit Hc).
    + cbn [trace]. unfold published. rewrite flat_map_app.
      fold (published (setup_push setup_property (snd (_parse_sandbox_result sb)))).
      rewrite published_setup_push, Hkey. reflexivity.
    + reflexivity.
Qed.

End ActionExtras.

Lemma raised_action_publishes_nothing_witness :
  published
    (trace (snd (run_unit_tests_action runner_failing parser_without_counts
                   local_runner_one_passed (str_of "test_app.py")
                   (str_of "/work") (str_of "test_result")
                   (Some (str_of "setup_result"))
                   (PyStr (str_of "python")) (PyBool false) (PyInt 300)
                   fresh_world)))
  = [].
Proof.
  destruct (raised_action_publishes_nothing runner_failing
              parser_without_counts local_runner_one_passed
              (str_of "test_app.py") (str_of "/work") (str_of "test_result")
              (Some (str_of "setup_result")) (PyBool false) (PyInt 300)
              (PyStr (str_of "python")) (CollaboratorError "sandbox runner")
              (mkWorld (mkFrame Unbound Unbound Unbound)
                 [SandboxRun (str_of "python") (str_of "test_app.py")
                    (str_of "/work") (pytest_command (str_of "test_app.py"))
                    (PyInt 300) (PyBool false)]))
    as [H | (H & _)].
  - reflexivity.
  - reflexivity.
  - discriminate.
Defined.

Lemma test_runs_of_an_invocation_witness :
  trace (snd (run_unit_tests_action (runner_returning scenario_A)
                parser_without_counts local_runner_one_passed
                (str_of "test_app.py") (str_of "/work") (str_of "test_result")
                (Some (str_of "setup_result"))
                (PyInt 1) (PyBool false) (PyInt 300) fresh_world))
  = []
  /\ executions
       (trace (snd (run_unit_tests_action (runner_returning scenario_D)
                      parser_without_counts local_runner_one_passed
                      (str_of "test_app.py") (str_of "/work")
                      (str_of "test_result") (Some (str_of "setup_result"))
                      (PyStr (str_of "python")) (PyBool false) (PyInt 300)
                      fresh_world)))
     = [SandboxRun (str_of "python") (str_of "test_app.py") (str_of "/work")
          (pytest_command (str_of "test_app.py")) (PyInt 300) (PyBool false)].
Proof.
  split.
  - apply (proj2 (proj2 (test_runs_of_an_invocation
                           (runner_returning scenario_A) parser_without_counts
                           local_runner_one_passed (str_of "test_app.py")
                           (str_of "/work") (str_of "test_result")
                           (Some (str_of "setup_result")) (PyBool false)
                           (PyInt 300) (PyInt 1)))).
    + reflexivity.
    + discriminate.
  - apply (proj1 (proj2 (test_runs_of_an_invocation
                           (runner_returning scenario_D) parser_without_counts
                           local_runner_one_passed (str_of "test_app.py")
                           (str_of "/work") (str_of "test_result")
                           (Some (str_of "setup_result")) (PyBool false)
                           (PyInt 300) (PyStr (str_of "python"))))
             (str_of "python")).
    + reflexivity.
    + discriminate.
Defined.

Lemma unset_setup_key_publishes_test_only_witness :
  exists w r,
    run_unit_tests_action (runner_returning scenario_A) parser_without_counts
      local_runner_one_passed (str_of "test_app.py") (str_of "/work")
      (str_of "test_result") None
      (PyStr (str_of "python")) (PyBool false) (PyInt 300) fresh_world
    = (Returned tt, w)
    /\ published (trace w) = [(str_of "test_result", PubUnitTest r)]
    /\ UnitTestResult.command r = [str_of "python -m pytest -v 'test_app.py'"].
Proof.
  apply (unset_setup_key_publishes_test_only (runner_returning scenario_A)
           parser_without_counts local_runner_one_passed
           (str_of "test_app.py") (str_of "/work") (str_of "test_result")
           None (PyBool false) (PyInt 300) (str_of "python") scenario_A).
  - reflexivity.
  - discriminate.
  - reflexivity.
  - split; vm_compute; reflexivity.
  - intros _. eexists. reflexivity.
Defined.

(** The reconciler on a stdout whose setup did not end. *)
Lemma parse_incomplete_stdout (exit_code : Z) (pre rest stderr : str) :
  first_start (pre ++ SETUP_START ++ rest) pre ->
  (forall j, ~ end_marker_at rest j) ->
  _parse_sandbox_result
    (SandboxResult.mk exit_code (pre ++ SETUP_START ++ rest) stderr)
  = (CommandResult.mk [] None [] (fst (fst (_split_stream stderr))),
     CommandResult.mk [] (Some exit_code) (strip rest NL)
       (snd (fst (_split_stream stderr)))).
Proof.
  intros Hs Hn. unfold _parse_sandbox_result.
  cbn [SandboxResult.stdout SandboxResult.stderr SandboxResult.exit_code].
  rewrite (split_stream_at_start pre rest Hs). unfold split_after_start.
  rewrite (search_none_without_marker rest Hn).
  destruct (_split_stream stderr) as [[t2 s2] c2]. reflexivity.
Qed.

(** A stdout whose setup did not end does not reach [int]. *)
Lemma split_stream_raises_incomplete (pre rest : str) :
  first_start (pre ++ SETUP_START ++ rest) pre ->
  (forall j, ~ end_marker_at rest j) ->
  split_stream_raises (pre ++ SETUP_START ++ rest) = false.
Proof.
  intros Hs Hn. unfold split_stream_raises.
  rewrite (int_argument_at_start pre rest Hs).
  now rewrite (search_none_without_marker rest Hn).
Qed.

(** X15.  A setup that did not end, from the stream to the item.  When the
    sandbox runner returns a stdout with a start marker and no end marker
    after it, and a stderr whose split does not raise, the action returns
    without calling the report parser; it publishes a test result with no
    returncode, zero passed and zero failed and an empty stdout, and then,
    under the setup key, a setup result with the sandbox's exit code and the
    text after the start marker, trimmed. *)
Theorem incomplete_setup_published
    (SandboxRunner_run :
       str -> str -> str -> list str -> PyValue -> PyValue -> exn + SandboxResult.t)
    (parse_python_unit_test_results : SandboxResult.t -> exn + UnitTestResult.t)
    (run_python_unit_tests : str -> str -> exn + UnitTestResult.t)
    (filename dir property key name : str) (stream_logs timeout : PyValue)
    (exit_code : Z) (pre rest stderr : str) :
  name <> [] ->
  key <> [] ->
  first_start (pre ++ SETUP_START ++ rest) pre ->
  (forall j, ~ end_marker_at rest j) ->
  split_stream_raises stderr = false ->
  SandboxRunner_run name filename dir (pytest_command filename)
    timeout stream_logs
  = inr (SandboxResult.mk exit_code (pre ++ SETUP_START ++ rest) stderr) ->
  exists w,
    run_unit_tests_action SandboxRunner_run parse_python_unit_test_results
      run_python_unit_tests filename dir property (Some key)
      (PyStr name) stream_logs timeout fresh_world
    = (Returned tt, w)
    /\ published (trace w)
       = [(property,
           PubUnitTest
             (UnitTestResult.mk (pytest_command filename) None 0 0 []
                (fst (fst (_split_stream stderr)))));
          (key,
           PubCommand
             (CommandResult.mk [] (Some exit_code) (strip rest NL)
                (snd (fst (_split_stream stderr)))))]
    /\ parser_calls (trace w) = [].
Proof.
  intros Hname Hkey Hs Hn He Hrun.
  pose proof (parse_incomplete_stdout exit_code pre rest stderr Hs Hn) as P.
  assert (Hsplit : parse_sandbox_result_outcome
                     (SandboxResult.mk exit_code (pre ++ SETUP_START ++ rest) stderr)
                   = inr (_parse_sandbox_result
                            (SandboxResult.mk exit_code
                               (pre ++ SETUP_START ++ rest) stderr))).
  { apply parse_outcome_returns; [|exact He].
    now apply split_stream_raises_incomplete. }
  eexists. split; [|split].
  - apply (sandboxed_run_tests_absent _ _ _ _ _ _ _ _ _ _ _ Hname Hrun Hsplit).
    now rewrite P.
  - cbn [trace]. rewrite P. cbn [fst snd]. unfold setup_push.
    rewrite (str_eqb_neq _ _ Hkey). reflexivity.
  - cbn [trace]. unfold setup_push. rewrite (str_eqb_neq _ _ Hkey). reflexivity.
Qed.

Lemma incomplete_setup_published_witness :
  exists w,
    run_unit_tests_action (runner_returning scenario_B) parser_failing
      local_runner_one_passed (str_of "test_app.py") (str_of "/work")
      (str_of "test_result") (Some (str_of "setup_result"))
      (PyStr (str_of "python")) (PyBool false) (PyInt 300) fresh_world
    = (Returned tt, w)
    /\ published (trace w)
       = [(str_of "test_result",
           PubUnitTest
             (UnitTestResult.mk [str_of "python -m pytest -v 'test_app.py'"]
                None 0 0 [] []));
          (str_of "setup_result",
           PubCommand
             (CommandResult.mk [] (Some 137%Z) (str_of "installing deps...") []))].
Proof.
  destruct (incomplete_setup_published (runner_returning scenario_B)
              parser_failing local_runner_one_passed
              (str_of "test_app.py") (str_of "/work") (str_of "test_result")
              (str_of "setup_result") (str_of "python")
              (PyBool false) (PyInt 300)
              137%Z [] (NL ++ str_of "installing deps...") [])
    as (w & Hrun & Hpub & _).
  - discriminate.
  - discriminate.
  - apply first_start_nil.
  - apply search_None. vm_compute. reflexivity.
  - reflexivity.
  - reflexivity.
  - exists w. split; [exact Hrun|]. rewrite Hpub. vm_compute. reflexivity.
Defined.

(* ================================================================== *)
(** * Further properties: the text of a CommandResult *)
(* ================================================================== *)

Example str_failed_137 :
  __str__ false (CommandResult.mk [] (Some 137%Z) (str_of "out") (str_of "killed"))
  = str_of "FAILED (code: 137, stderr: killed)".
Proof. reflexivity. Qed.

Example str_debug_absent :
  __str__ true (CommandResult.mk [] None (str_of "out") [])
  = str_of "FAILED (code: None, stdout: out)".
Proof. reflexivity. Qed.

(** X16.  The text of a CommandResult begins with SUCCESS exactly when the
    result is a success, and with FAILED exactly when it is not, with and
    without debugging. *)
Theorem str_status_prefix (debugging : bool) (r : CommandResult.t) :
  startswith (__str__ debugging r) (str_of "SUCCESS") = CommandResult.success r
  /\ startswith (__str__ debugging r) (str_of "FAILED")
     = negb (CommandResult.success r).
Proof.
  unfold __str__. destruct (CommandResult.success r); split;
    try apply startswith_app; reflexivity.
Qed.

(** X17.  Without debugging the text depends on the returncode and on stderr
    only: neither stdout nor the command shows in it, and for a success
    stderr does not show either. *)
Theorem str_without_debugging (r r' : CommandResult.t) :
  CommandResult.returncode r = CommandResult.returncode r' ->
  (CommandResult.success r = false ->
   CommandResult.stderr r = CommandResult.stderr r') ->
  __str__ false r = __str__ false r'.
Proof.
  intros Hc He. unfold __str__, CommandResult.success in *. rewrite <- Hc.
  destruct (match CommandResult.returncode r with
            | Some c => (c =? 0)%Z
            | None => false
            end); cbn [orb andb negb]; [reflexivity|].
  now rewrite (He eq_refl).
Qed.

Lemma str_without_debugging_witness :
  __str__ false (CommandResult.mk [str_of "pytest"] (Some 0%Z)
                   (str_of "1 passed") (str_of "warning"))
  = __str__ false (CommandResult.mk [] (Some 0%Z) [] []).
Proof.
  apply str_without_debugging.
  - reflexivity.
  - discriminate.
Defined.

(* ================================================================== *)
(** * Further properties: the life of the display application *)
(* ================================================================== *)

Section LifecycleExtras.

Import FullDisplayApp.

Ltac unfold_handlers :=
  unfold handle, action_quit, _cancel_after_delay, _run_pipeline_ends,
    _cancel_pipeline, _select_tab, console_service_append, set_is_quitting,
    set_worker, exit, cancel; cbn -[Nat.ltb].

(** The worker, if there is one, has finished. *)
Let settled (self : App) : Prop :=
  forall w, _pipeline_worker self = Some w -> is_finished w = true.

Lemma handle_settled (self : App) (i : Input) :
  settled self ->
  settled (handle self i)
  /\ worker_cancel_calls (handle self i) = worker_cancel_calls self.
Proof.
  subst settled. unfold worker_cancel_calls. intros H.
  destruct self as [ne [w|] q co tab cl cr ex]; cbn in H.
  - pose proof (H w eq_refl) as Hf. clear H.
    assert (Hs : state w <> PENDING).
    { unfold is_finished in Hf. intros E. rewrite E in Hf. discriminate. }
    destruct i as [| | | final | t]; unfold_handlers.
    + destruct q; cbn; [|rewrite Hf; cbn]; split; auto;
        intros w' [= <-]; exact Hf.
    + destruct (cr <? cl)%nat; cbn; [rewrite Hf; cbn|]; split; auto;
        intros w' [= <-]; exact Hf.
    + destruct (state w) eqn:E; try congruence; cbn; split; auto;
        intros w' [= <-]; exact Hf.
    + rewrite Hf. cbn. split; auto. intros w' [= <-]; exact Hf.
    + split; auto. intros w' [= <-]; exact Hf.
  - clear H. destruct i as [| | | final | t]; unfold_handlers.
    + destruct q; cbn; split; auto; discriminate.
    + destruct (cr <? cl)%nat; cbn; split; auto; discriminate.
    + split; auto; discriminate.
    + split; auto; discriminate.
    + split; auto; discriminate.
Qed.

(** A quit request without a running pipeline only marks the application as
    quitting and exits. *)
Lemma action_quit_not_running (self : App) :
  _is_quitting self = false ->
  (forall w, _pipeline_worker self = Some w -> is_finished w = true) ->
  action_quit self = exit (set_is_quitting true self).
Proof.
  intros Hq Hw. unfold action_quit. rewrite Hq.
  cbv beta zeta. unfold set_is_quitting at 1 3. cbn [_pipeline_worker].
  destruct self as [ne [w|] q co tab cl cr ex]; [|reflexivity].
  cbn [_pipeline_worker] in Hw |- *. rewrite (Hw w eq_refl). reflexivity.
Qed.

(** X18.  A quit request when no pipeline task is running (there is no
    worker, or it has finished) exits at once: one call of [exit()], no
    cleanup notice, no scheduled cancellation; a second quit request does
    nothing. *)
Theorem quit_without_running_pipeline (self : App) :
  _is_quitting self = false ->
  ~ pipeline_running self ->
  exit_calls (action_quit self) = S (exit_calls self)
  /\ console (action_quit self) = console self
  /\ call_later_calls (action_quit self) = call_later_calls self
  /\ action_quit (action_quit self) = action_quit self.
Proof.
  intros Hq Hn.
  assert (Hw : forall w, _pipeline_worker self = Some w -> is_finished w = true).
  { intros w E. destruct (is_finished w) eqn:F; [reflexivity|].
    exfalso. apply Hn. now exists w. }
  rewrite (action_quit_not_running self Hq Hw).
  split; [reflexivity|]. split; [reflexivity|]. split; [reflexivity|].
  now apply action_quit_when_quitting.
Qed.

Lemma quit_without_running_pipeline_witness :
  exit_calls
    (action_quit (run (mounted true (str_of "tab_console"))
                    [WorkerStarts; PipelineEnds SUCCESS])) = 1
  /\ console
       (action_quit (run (mounted true (str_of "tab_console"))
                       [WorkerStarts; PipelineEnds SUCCESS])) = [].
Proof.
  destruct (quit_without_running_pipeline
              (run (mounted true (str_of "tab_console"))
                 [WorkerStarts; PipelineEnds SUCCESS]))
    as (He & Hc & _).
  - reflexivity.
  - intros (w & E & F). vm_compute in E. injection E as <-. discriminate.
  - split; [exact He | exact Hc].
Defined.

(** X19.  Once the worker has finished, nothing cancels it: whatever the
    application handles afterwards, a delayed cancellation that fires late
    included, the worker receives no further [cancel()]. *)
Theorem finished_worker_is_not_cancelled (self : App) (inputs : list Input) :
  (forall w, _pipeline_worker self = Some w -> is_finished w = true) ->
  worker_cancel_calls (run self inputs) = worker_cancel_calls self.
Proof.
  revert self. induction inputs as [|i inputs IH]; intros self H; [reflexivity|].
  cbn [run fold_left]. destruct (handle_settled self i H) as [H' E].
  fold (run (handle self i) inputs). now rewrite (IH _ H').
Qed.

Lemma finished_worker_is_not_cancelled_witness :
  worker_cancel_calls
    (run (run (mounted false (str_of "tab_console"))
            [WorkerStarts; QuitRequest; PipelineEnds SUCCESS])
       [DelayElapsed])
  = 0.
Proof.
  etransitivity.
  - apply finished_worker_is_not_cancelled.
    intros w E. vm_compute in E. injection E as <-. reflexivity.
  - reflexivity.
Defined.

(** After a quit request the application is quitting, its worker is still
    unfinished and [exit()] has been called [n] times. *)
Let waiting (n : nat) (self : App) : Prop :=
  _is_quitting self = true
  /\ (exists w, _pipeline_worker self = Some w /\ is_finished w = false)
  /\ exit_calls self = n.

Lemma handle_waiting (n : nat) (self : App) (i : Input) :
  waiting n self -> (forall final, i <> PipelineEnds final) ->
  waiting n (handle self i).
Proof.
  subst waiting. intros (Hq & (w & Hw & Hf) & He) Hi.
  destruct self as [ne w' q co tab cl cr ex]; cbn in Hq, Hw, He; subst.
  destruct i as [| | | final | t]; unfold_handlers.
  - repeat split; auto. now exists w.
  - destruct (cr <? cl)%nat; cbn.
    + rewrite Hf. cbn. destruct (is_running w); cbn; repeat split; auto.
      * eexists. split; [reflexivity|]. exact Hf.
      * now exists w.
    + repeat split; auto. now exists w.
  - destruct (state w) eqn:E; cbn; repeat split; auto; try now exists w.
    eexists. split; reflexivity.
  - now destruct (Hi final).
  - repeat split; auto. now exists w.
Qed.

Lemma run_waiting (n : nat) (inputs : list Input) (self : App) :
  waiting n self -> no_pipeline_end inputs -> waiting n (run self inputs).
Proof.
  revert self. induction inputs as [|i inputs IH]; intros self W Hn; [exact W|].
  cbn [run fold_left]. inversion Hn as [|? ? Hi Hrest]; subst.
  apply (IH (handle self i)); [|exact Hrest].
  now apply handle_waiting.
Qed.

(** X20.  After a quit request while the pipeline runs, the application does
    not exit as long as the pipeline has not ended, whatever else it handles;
    when the pipeline ends it exits, exactly once, also with [no_exit]. *)
Theorem quit_exits_when_pipeline_ends
    (self : App) (inputs : list Input) (final : WorkerState) :
  pipeline_running self ->
  _is_quitting self = false ->
  no_pipeline_end inputs ->
  exit_calls (run self (QuitRequest :: inputs)) = exit_calls self
  /\ exit_calls (run self (QuitRequest :: inputs ++ [PipelineEnds final]))
     = S (exit_calls self).
Proof.
  intros Hrun Hq Hn.
  assert (W : waiting (exit_calls self) (action_quit self)).
  { subst waiting. destruct Hrun as (w & Hw & Hf).
    destruct self as [ne w' q co tab cl cr ex]; cbn in Hq, Hw; subst.
    unfold_handlers. rewrite Hf. cbn. repeat split. now exists w. }
  pose proof (run_waiting _ inputs _ W Hn) as W'.
  change (run self (QuitRequest :: inputs)) with (run (action_quit self) inputs).
  split; [apply W'|].
  change (run self (QuitRequest :: inputs ++ [PipelineEnds final]))
    with (run (action_quit self) (inputs ++ [PipelineEnds final])).
  unfold run in *. rewrite fold_left_app. cbn [fold_left].
  destruct W' as (Hq' & (w & Hw & Hf) & He).
  destruct (fold_left handle inputs (action_quit self))
    as [ne w' q co tab cl cr ex]; cbn in Hq', Hw, He; subst.
  unfold_handlers. rewrite Hf. cbn. reflexivity.
Qed.

Lemma quit_exits_when_pipeline_ends_witness :
  exit_calls
    (run (run (mounted true (str_of "tab_console")) [WorkerStarts])
       (QuitRequest :: [DelayElapsed; QuitRequest])) = 0
  /\ exit_calls
       (run (run (mounted true (str_of "tab_console")) [WorkerStarts])
          (QuitRequest :: [DelayElapsed; QuitRequest] ++ [PipelineEnds CANCELLED]))
     = 1.
Proof.
  apply (quit_exits_when_pipeline_ends
           (run (mounted true (str_of "tab_console")) [WorkerStarts])
           [DelayElapsed; QuitRequest] CANCELLED).
  - exists (mkWorker RUNNING 0). split; reflexivity.
  - reflexivity.
  - repeat constructor; intros final; discriminate.
Defined.

(** Nobody has asked to quit, [no_exit] is set and [exit()] was not called. *)
Let open (self : App) : Prop :=
  _is_quitting self = false /\ _params_no_exit self = true /\ exit_calls self = 0.

Lemma handle_open (self : App) (i : Input) :
  open self -> i <> QuitRequest -> open (handle self i).
Proof.
  subst open. intros (Hq & Hn & He) Hi.
  destruct self as [ne [w|] q co tab cl cr ex]; cbn in Hq, Hn, He; subst;
    destruct i as [| | | final | t]; try congruence; unfold_handlers; auto.
  - destruct (cr <? cl)%nat; cbn; auto.
    destruct (negb (is_finished w) && is_running w); cbn; auto.
  - destruct (state w); cbn; auto.
  - destruct (is_finished w); cbn; auto.
  - destruct (cr <? cl)%nat; cbn; auto.
Qed.

(** X21.  With [no_exit], a session in which nobody asks to quit never calls
    [exit()]: the application stays open after the pipeline has ended. *)
Theorem no_exit_keeps_session_open (tab : str) (inputs : list Input) :
  no_quit_request inputs ->
  exit_calls (run (mounted true tab) inputs) = 0.
Proof.
  intros Hn.
  assert (H : forall self, open self -> open (run self inputs)).
  { induction Hn as [|i inputs Hi _ IH]; intros self O; [exact O|].
    cbn [run fold_left]. apply IH. now apply handle_open. }
  apply (H (mounted true tab)). subst open. cbn. auto.
Qed.

Lemma no_exit_keeps_session_open_witness :
  exit_calls
    (run (mounted true (str_of "tab_console"))
       [WorkerStarts; PipelineEnds SUCCESS; DelayElapsed]) = 0.
Proof.
  apply no_exit_keeps_session_open.
  repeat constructor; discriminate.
Defined.

End LifecycleExtras.

(* ================================================================== *)
(** * Further properties: tabs and panes *)
(* ================================================================== *)

Section ViewExtras.

Import TabView.

Lemma switch_tab_one_pane (tab_id : str) (self : Screen) :
  one_pane self -> one_pane (_switch_tab tab_id self).
Proof.
  unfold one_pane, _switch_tab. intros H.
  destruct (str_eqb tab_id tab_pipeline); [reflexivity|].
  destruct (str_eqb tab_id tab_console); [reflexivity | exact H].
Qed.

Lemma view_one_pane (self : Screen) (i : ViewInput) :
  one_pane self -> one_pane (view self i).
Proof.
  intros H. destruct i as [| tab_id classes |]; cbn [view].
  - reflexivity.
  - unfold on_tabs_tab_activated.
    destruct (existsb (str_eqb (str_of "-active")) classes); [|exact H].
    now apply switch_tab_one_pane.
  - reflexivity.
Qed.

(** X22.  From [on_mount] on, exactly one of the two panes is displayed,
    whatever the screen was before and whatever notifications and tab
    activations follow. *)
Theorem one_pane_after_mount
    (pipelines : nat) (before : Screen) (inputs : list ViewInput) :
  one_pane (views (on_mount pipelines before) inputs).
Proof.
  assert (H : one_pane (on_mount pipelines before)).
  { unfold on_mount. destruct (0 <? pipelines)%nat; reflexivity. }
  revert H. generalize (on_mount pipelines before).
  induction inputs as [|i inputs IH]; intros self H; [exact H|].
  cbn [views fold_left]. apply (IH (view self i)). now apply view_one_pane.
Qed.

Lemma view_keeps_pipeline_tab (self : Screen) (i : ViewInput) :
  tab_pipeline_display self = true -> tab_pipeline_display (view self i) = true.
Proof.
  intros H. destruct i as [| tab_id classes |]; cbn [view]; try reflexivity.
  - unfold on_tabs_tab_activated, _switch_tab.
    destruct (existsb (str_eqb (str_of "-active")) classes); [|exact H].
    destruct (str_eqb tab_id tab_pipeline); [reflexivity|].
    destruct (str_eqb tab_id tab_console); exact H.
  - exact H.
Qed.

Lemma views_keep_pipeline_tab (inputs : list ViewInput) (self : Screen) :
  tab_pipeline_display self = true ->
  tab_pipeline_display (views self inputs) = true.
Proof.
  revert self. induction inputs as [|i inputs IH]; intros self H; [exact H|].
  cbn [views fold_left]. apply (IH (view self i)).
  now apply view_keeps_pipeline_tab.
Qed.

(** X23.  Once a pipeline-started notification has arrived, the pipeline tab
    is displayed and nothing that follows hides it again. *)
Theorem pipeline_tab_shown_after_start
    (self : Screen) (inputs : list ViewInput) :
  In PipelineStarted inputs ->
  tab_pipeline_display (views self inputs) = true.
Proof.
  revert self. induction inputs as [|i inputs IH]; intros self H; [destruct H|].
  cbn [views fold_left]. destruct H as [-> | H].
  - apply views_keep_pipeline_tab. reflexivity.
  - apply (IH (view self i) H).
Qed.

Lemma pipeline_tab_shown_after_start_witness :
  tab_pipeline_display
    (views (on_mount 0 composed)
       [QuitNotice; PipelineStarted;
        TabActivated tab_console [str_of "-active"]; QuitNotice])
  = true.
Proof.
  apply pipeline_tab_shown_after_start. right. left. reflexivity.
Defined.

(** X24.  Mounted without a pipeline, the application shows the console pane
    and hides the pipeline tab, and the tab stays hidden as long as no
    pipeline starts and the pipeline tab is not activated. *)
Theorem pipeline_tab_hidden_until_start
    (before : Screen) (inputs : list ViewInput) :
  Forall quiet inputs ->
  tab_pipeline_display (views (on_mount 0 before) inputs) = false
  /\ pane_console_display (on_mount 0 before) = true
  /\ pane_pipeline_display (on_mount 0 before) = false.
Proof.
  intros Hq. split; [|split; reflexivity].
  assert (H : tab_pipeline_display (on_mount 0 before) = false) by reflexivity.
  revert H. generalize (on_mount 0 before).
  induction Hq as [|i inputs Hi _ IH]; intros self H; [exact H|].
  cbn [views fold_left]. apply IH.
  destruct i as [| tab_id classes |]; cbn [view]; unfold quiet in Hi.
  - destruct Hi.
  - unfold on_tabs_tab_activated, _switch_tab.
    destruct (existsb (str_eqb (str_of "-active")) classes); [|exact H].
    rewrite (str_eqb_neq _ _ Hi).
    destruct (str_eqb tab_id tab_console); exact H.
  - exact H.
Qed.

Lemma pipeline_tab_hidden_until_start_witness :
  tab_pipeline_display
    (views (on_mount 0 composed)
       [TabActivated tab_console [str_of "-active"]; QuitNotice])
  = false.
Proof.
  refine (proj1 (pipeline_tab_hidden_until_start composed
                   [TabActivated tab_console [str_of "-active"]; QuitNotice] _)).
  repeat constructor. cbn. discriminate.
Defined.

End ViewExtras.
